(** * Tuhi: BLE topology resolution, device sessions and drawing decoding

    A shallow embedding of [tuhi/ble.py] and [tuhi.py] and the properties
    proved about them.  Python objects become records, dictionaries become
    finite maps ([gmap]) or association lists where insertion order shows,
    [for] loops become folds over lists, and a raised exception becomes the
    [Raise] case of the [result] type. *)

From stdpp Require Import gmap strings list fin_maps.

Set Warnings "-register-all,-clear-no-such-hyp".
Local Open Scope Z_scope.

(** ** Python exceptions *)

Inductive exn :=
  | AssertionError
  | AttributeError
  | IndexError
  | KeyError
  | TypeError.

Global Instance exn_eq_dec : EqDecision exn.
Proof. solve_decision. Defined.

Inductive result (A : Type) :=
  | Ok (a : A)
  | Raise (e : exn).
Arguments Ok {A} a.
Arguments Raise {A} e.

Global Instance result_ret : MRet result := @Ok.
Global Instance result_bind : MBind result :=
  λ A B f m, match m with Ok a => f a | Raise e => Raise e end.

(** [try: body except e: handler] *)
Definition try_except {A} (body : result A) (e : exn) (handler : result A) : result A :=
  match body with
  | Raise e' => if decide (e' = e) then handler else Raise e'
  | Ok a => Ok a
  end.

(** [for a in l: s = body(s, a)], where the body may raise. *)
Fixpoint for_each {A S} (body : S → A → result S) (l : list A) (s : S) : result S :=
  match l with
  | [] => Ok s
  | a :: l => s' ← body s a; for_each body l s'
  end.

(** [assert(v is not None)] *)
Definition assert_not_None {A} (v : option A) : result A :=
  match v with Some a => Ok a | None => Raise AssertionError end.

(** [v.get_string()]: an attribute access on [None] raises [AttributeError]. *)
Definition get_string {A} (v : option A) : result A :=
  match v with Some a => Ok a | None => Raise AttributeError end.

(** [d[k]] on a dictionary. *)
Definition getitem {V} (d : gmap string V) (k : string) : result V :=
  match d !! k with Some v => Ok v | None => Raise KeyError end.

(** A Python callable handed over as a callback, named by a handle. *)
Definition Callback := nat.

(** ** The D-Bus objects of org.bluez, as the object manager caches them

    An object is known by its path and exposes any of the four interfaces
    the code asks for with [get_interface].  The cached properties that the
    constructor of a device guards (Address, Name, UUIDs) and
    ManufacturerData may be missing; Connected, Device, Service and UUID
    are mandatory properties of their interfaces. *)

Record Device1 := {
  Address : option string;
  Name : option string;
  UUIDs : option (list string);
  ManufacturerData : option (list (Z * list Z));
  Connected : bool
}.

Record GattService1 := { Device : string }.

Record GattCharacteristic1 := { Service : string; UUID : string }.

Record DBusObject := {
  get_object_path : string;
  ORG_BLUEZ_ADAPTER1 : option unit;
  ORG_BLUEZ_DEVICE1 : option Device1;
  ORG_BLUEZ_GATTSERVICE1 : option GattService1;
  ORG_BLUEZ_GATTCHARACTERISTIC1 : option GattCharacteristic1
}.

Global Instance Device1_eq_dec : EqDecision Device1.
Proof. solve_decision. Defined.
Global Instance GattService1_eq_dec : EqDecision GattService1.
Proof. solve_decision. Defined.
Global Instance GattCharacteristic1_eq_dec : EqDecision GattCharacteristic1.
Proof. solve_decision. Defined.
Global Instance DBusObject_eq_dec : EqDecision DBusObject.
Proof. solve_decision. Defined.

(** ** class BlueZCharacteristic *)

Module BlueZCharacteristic.

Record t := {
  obj : DBusObject;
  objpath : string;
  interface : GattCharacteristic1;
  uuid : string;
  _property_callbacks : gmap string Callback;
  (* calls of [interface.StartNotify()] issued through this object *)
  StartNotify_calls : nat
}.

Definition __init__ (obj : DBusObject) : result t :=
  interface ← assert_not_None (ORG_BLUEZ_GATTCHARACTERISTIC1 obj);
  let uuid := UUID interface in
  Ok {| obj := obj;
        objpath := get_object_path obj;
        interface := interface;
        uuid := uuid;
        _property_callbacks := ∅;
        StartNotify_calls := 0 |}.

Definition connect_property (self : t) (propname : string) (callback : Callback) : t :=
  {| obj := obj self;
     objpath := objpath self;
     interface := interface self;
     uuid := uuid self;
     _property_callbacks := <[propname := callback]> (_property_callbacks self);
     StartNotify_calls := StartNotify_calls self |}.

Definition start_notify (self : t) : t :=
  {| obj := obj self;
     objpath := objpath self;
     interface := interface self;
     uuid := uuid self;
     _property_callbacks := _property_callbacks self;
     StartNotify_calls := S (StartNotify_calls self) |}.

(** [_on_properties_changed]: the callbacks to run for a batch of changed
    properties, in the order of the batch; a name without a callback
    ([KeyError]) is skipped. *)
Definition _on_properties_changed {V} (self : t) (properties : list (string * V))
  : list (Callback * string * V) :=
  foldl (λ calls '(name, value),
           match _property_callbacks self !! name with
           | Some cb => calls ++ [(cb, name, value)]
           | None => calls
           end) [] properties.

End BlueZCharacteristic.

(** ** class BlueZDevice *)

Module BlueZDevice.

(** What a call of [connect_device] does on the transport. *)
Inductive effect :=
  | emit_connected
  | call_Connect.

Record t := {
  objpath : string;
  obj : DBusObject;
  interface : Device1;
  address : string;
  name : string;
  uuids : list string;
  vendor_id : Z;
  characteristics : gmap string BlueZCharacteristic.t;
  gatt_services : list DBusObject
}.

Definition set_characteristics (self : t) (c : gmap string BlueZCharacteristic.t) : t :=
  {| objpath := objpath self; obj := obj self; interface := interface self;
     address := address self; name := name self; uuids := uuids self;
     vendor_id := vendor_id self;
     characteristics := c;
     gatt_services := gatt_services self |}.

Definition set_gatt_services (self : t) (s : list DBusObject) : t :=
  {| objpath := objpath self; obj := obj self; interface := interface self;
     address := address self; name := name self; uuids := uuids self;
     vendor_id := vendor_id self;
     characteristics := characteristics self;
     gatt_services := s |}.

Definition _resolve_gatt_characteristics
    (self : t) (service_obj : DBusObject) (objects : list DBusObject) : result t :=
  for_each (λ self obj,
    match ORG_BLUEZ_GATTCHARACTERISTIC1 obj with
    | None => Ok self
    | Some i =>
        let service := Service i in
        if decide (service ≠ get_object_path service_obj) then Ok self
        else
          chrc ← BlueZCharacteristic.__init__ obj;
          if decide (is_Some (characteristics self !! BlueZCharacteristic.uuid chrc))
          then Ok self
          else Ok (set_characteristics self
                     (<[BlueZCharacteristic.uuid chrc := chrc]> (characteristics self)))
    end) objects self.

Definition _resolve_gatt_services (self : t) (objects : list DBusObject) : result t :=
  let self := set_gatt_services self [] in
  for_each (λ self obj,
    match ORG_BLUEZ_GATTSERVICE1 obj with
    | None => Ok self
    | Some i =>
        let device := Device i in
        if decide (device ≠ objpath self) then Ok self
        else
          let self := set_gatt_services self (gatt_services self ++ [obj]) in
          _resolve_gatt_characteristics self obj objects
    end) objects self.

(** [om.get_objects()] is the list [om] itself. *)
Definition resolve (self : t) (om : list DBusObject) : result t :=
  let objects := om in
  _resolve_gatt_services self objects.

(** [md.keys()[0]] *)
Definition first_key (md : list (Z * list Z)) : result Z :=
  match md with
  | [] => Raise IndexError
  | (k, _) :: _ => Ok k
  end.

(** The constructor.  No handler is connected to a device under
    construction, so the ['connected'] signal it may emit at its end
    reaches nobody. *)
Definition __init__ (om : list DBusObject) (obj : DBusObject) : result t :=
  interface ← assert_not_None (ORG_BLUEZ_DEVICE1 obj);
  address ← get_string (Address interface);
  name ← get_string (Name interface);
  let uuids := UUIDs interface in
  vendor_id ← match ManufacturerData interface with
              | Some md => first_key md
              | None => Ok 0
              end;
  uuids ← assert_not_None uuids;
  let self := {| objpath := get_object_path obj;
                 obj := obj;
                 interface := interface;
                 address := address;
                 name := name;
                 uuids := uuids;
                 vendor_id := vendor_id;
                 characteristics := ∅;
                 gatt_services := [] |} in
  resolve self om.

Definition connect_device (self : t) : effect :=
  let i := interface self in
  if Connected i then emit_connected else call_Connect.

Definition connect_gatt_value (self : t) (uuid : string) (callback : Callback) : result t :=
  try_except
    (chrc ← getitem (characteristics self) uuid;
     let chrc := BlueZCharacteristic.connect_property chrc "Value" callback in
     let chrc := BlueZCharacteristic.start_notify chrc in
     (* [chrc] is the object held by the dictionary *)
     Ok (set_characteristics self (<[uuid := chrc]> (characteristics self))))
    KeyError
    (Ok self).

End BlueZDevice.

(** ** class BlueZDeviceManager *)

Module BlueZDeviceManager.

Inductive signal :=
  | device_added (dev : BlueZDevice.t).

Record t := {
  (* the objects the object manager client [self._om] holds, oldest first *)
  _om : list DBusObject;
  devices : list BlueZDevice.t;
  (* the signals emitted so far, each with the device as it was then *)
  emitted : list signal
}.

Definition __init__ : t := {| _om := []; devices := []; emitted := [] |}.

Definition _process_adapter (self : t) (obj : DBusObject) : t := self.

Definition _process_device (self : t) (obj : DBusObject) : result t :=
  dev ← BlueZDevice.__init__ (_om self) obj;
  Ok {| _om := _om self;
        devices := devices self ++ [dev];
        emitted := emitted self ++ [device_added dev] |}.

Definition _process_object (self : t) (obj : DBusObject) : result (t * bool) :=
  if decide (is_Some (ORG_BLUEZ_ADAPTER1 obj)) then
    Ok (_process_adapter self obj, false)
  else if decide (is_Some (ORG_BLUEZ_DEVICE1 obj)) then
    self ← _process_device self obj; Ok (self, false)
  else if decide (is_Some (ORG_BLUEZ_GATTCHARACTERISTIC1 obj)) then
    Ok (self, true)
  else Ok (self, false).

(** Callback for the object manager's object-added; its [om] argument is
    [self._om]. *)
Definition _on_om_object_added (self : t) (obj : DBusObject) : result t :=
  let om := _om self in
  '(self, needs_resolve) ← _process_object self obj;
  if needs_resolve : bool then
    ds ← for_each (λ done d, d ← BlueZDevice.resolve d om; Ok (done ++ [d]))
           (devices self) [];
    Ok {| _om := _om self; devices := ds; emitted := emitted self |}
  else Ok self.

(** The transport announces [obj]: the object manager client stores it and
    then runs the callback; an exception leaving the callback is reported
    by the main loop, which goes on. *)
Definition object_added (self : t) (obj : DBusObject) : t :=
  let self := {| _om := _om self ++ [obj];
                 devices := devices self;
                 emitted := emitted self |} in
  match _on_om_object_added self obj with
  | Ok self' => self'
  | Raise _ => self
  end.

Definition _on_om_object_removed (self : t) (obj : DBusObject) : t := self.

(** [connect_to_bluez] with an object manager client that holds [objs]:
    the objects are processed in the order of [get_objects]. *)
Definition connect_to_bluez (self : t) (objs : list DBusObject) : result t :=
  let self := {| _om := objs; devices := devices self; emitted := emitted self |} in
  for_each (λ self obj, '(self, _) ← _process_object self obj; Ok self) objs self.

(** The objects of [objs] announced one at a time, to a fresh manager. *)
Definition deliver (objs : list DBusObject) : t := foldl object_added __init__ objs.

End BlueZDeviceManager.

(** ** Collaborators of [tuhi.py] that are not part of the sources *)

(** Modelled from the spec: [BlueZDevice.get_manufacturer_data], which
    [tuhi.py] calls and [tuhi/ble.py] does not define.  Manufacturer data
    are "vendor-specific bytes in a BLE advertisement, keyed by vendor
    identifier": [manufacturer_payload] is the payload that the
    advertisement of the device carries for a vendor, if any.  Absent data
    count as a payload of a length other than 4 ("any other length
    (including absent data)"): what the method returns for a vendor
    without data is the empty payload. *)
Definition manufacturer_payload (self : BlueZDevice.t) (vendor_id : Z) : option (list Z) :=
  md ← ManufacturerData (BlueZDevice.interface self);
  kv ← list_find (λ kv, kv.1 = vendor_id) md;
  Some (kv.2.2).

Definition get_manufacturer_data (self : BlueZDevice.t) (vendor_id : Z) : list Z :=
  default [] (manufacturer_payload self vendor_id).

(** Modelled from the spec: the point tuples of [tuhi.wacom.Stroke],
    "(encoding, x, y, pressure) where encoding is either Absolute or
    Relative, and x, y, pressure are each independently optional numeric
    values", and the drawing that holds them. *)
Module Stroke.
Inductive encoding := ABSOLUTE | RELATIVE.
Definition point : Type := encoding * option Z * option Z * option Z.
Record t := { points : list point }.
End Stroke.

Global Instance encoding_eq_dec : EqDecision Stroke.encoding.
Proof. solve_decision. Defined.

Module Drawing.
Record t := { timestamp : Z; strokes : list Stroke.t }.
End Drawing.

(** Modelled from the spec: the protocol driver [tuhi.wacom.WacomDevice],
    "external collaborator" with an "already working" check.  Nothing is
    said about what its calls do, so it is an arbitrary state machine. *)
Record WacomDriver := {
  WacomDevice : Type;
  WacomDevice__init__ : BlueZDevice.t → WacomDevice;
  working : WacomDevice → bool;
  start : WacomDevice → WacomDevice;
  start_pairing : WacomDevice → WacomDevice
}.

(** ** Python values that reach the published record *)

Inductive pyval :=
  | PyNone
  | PyInt (z : Z)
  | PyStr (s : string)
  | PyTuple (l : list pyval)
  | PyList (l : list pyval)
  | PyDict (d : list (string * pyval)).

Definition of_option (v : option Z) : pyval :=
  match v with Some z => PyInt z | None => PyNone end.

Definition is_None (v : pyval) : bool :=
  match v with PyNone => true | _ => false end.

(** [d[key] = val] on a dictionary kept in insertion order. *)
Fixpoint setitem (d : list (string * pyval)) (key : string) (val : pyval)
  : list (string * pyval) :=
  match d with
  | [] => [(key, val)]
  | (k, v) :: d => if decide (k = key) then (k, val) :: d else (k, v) :: setitem d key val
  end.


Fixpoint get (d : list (string * pyval)) (key : string) : option pyval :=
  match d with
  | [] => None
  | (k, v) :: d => if decide (k = key) then Some v else get d key
  end.

(** ** class TuhiDrawing *)

Module TuhiDrawing.

Module Point.
(** The attributes of a point; [None] is an attribute never assigned
    ([__init__] assigns none). *)
Record t := {
  toffset : option pyval;
  position : option pyval;
  pressure : option pyval
}.

Definition __init__ : t := {| toffset := None; position := None; pressure := None |}.

Definition set_position (self : t) (v : pyval) : t :=
  {| toffset := toffset self; position := Some v; pressure := pressure self |}.

Definition set_pressure (self : t) (v : pyval) : t :=
  {| toffset := toffset self; position := position self; pressure := Some v |}.

(** [getattr(self, key, default)] *)
Definition getattr (self : t) (key : string) (default : pyval) : pyval :=
  let attr :=
    if decide (key = "toffset") then toffset self
    else if decide (key = "position") then position self
    else if decide (key = "pressure") then pressure self
    else None in
  match attr with Some v => v | None => default end.

Definition to_dict (self : t) : list (string * pyval) :=
  foldl (λ d key,
           let val := getattr self key PyNone in
           if is_None val then d else setitem d key val)
        [] ["toffset"; "position"; "pressure"]%string.
End Point.

Module Stroke.
Record t := { points : list Point.t }.

Definition __init__ : t := {| points := [] |}.

Definition to_dict (self : t) : list (string * pyval) :=
  setitem [] "points" (PyList (map (λ p, PyDict (Point.to_dict p)) (points self))).
End Stroke.

Record t := {
  name : string;
  dimensions : Z * Z;
  timestamp : Z;
  strokes : list Stroke.t
}.

Definition __init__ (name : string) (dimensions : Z * Z) (timestamp : Z) : t :=
  {| name := name; dimensions := dimensions; timestamp := timestamp; strokes := [] |}.



End TuhiDrawing.

(** Modelled from the spec: the device object of [tuhi.dbusserver] that
    [TuhiDBusServer.create_device] returns, the "external-facing
    counterpart" of a device.  It keeps what [tuhi.py] hands to it: the
    [pairingmode] attribute and the drawings given to [add_drawing]. *)
Module TuhiDBusDevice.
Record t := {
  bluez_address : string;
  pairingmode : option bool;
  drawings : list TuhiDrawing.t
}.

Definition set_pairingmode (self : t) (b : bool) : t :=
  {| bluez_address := bluez_address self; pairingmode := Some b;
     drawings := drawings self |}.

Definition add_drawing (self : t) (d : TuhiDrawing.t) : t :=
  {| bluez_address := bluez_address self; pairingmode := pairingmode self;
     drawings := drawings self ++ [d] |}.
End TuhiDBusDevice.

(** Modelled from the spec: [tuhi.dbusserver.TuhiDBusServer].  The server
    remembers for which devices [create_device] was called: each call is
    the creation of one external-facing counterpart, announced
    downstream. *)
Module TuhiDBusServer.
Record t := { created : list BlueZDevice.t }.

Definition __init__ : t := {| created := [] |}.

Definition create_device (self : t) (bluez_device : BlueZDevice.t)
  : t * TuhiDBusDevice.t :=
  ({| created := created self ++ [bluez_device] |},
   {| TuhiDBusDevice.bluez_address := BlueZDevice.address bluez_device;
      TuhiDBusDevice.pairingmode := None;
      TuhiDBusDevice.drawings := [] |}).
End TuhiDBusServer.

Definition WACOM_COMPANY_ID : Z := 0x4755.

(** ** class TuhiDevice *)

Module TuhiDevice.

(** The calls a device session issues on its collaborators, oldest
    first. *)
Inductive call :=
  | wacom_start
  | wacom_start_pairing
  | bluez_Connect
  | bluez_disconnect_device.

Section driver.
Context (W : WacomDriver).

(** A session holds its transport device as it was handed over; of that
    device it reads the address, the vendor identifier and the cached
    properties only. *)
Record t := {
  _tuhi_dbus_device : TuhiDBusDevice.t;
  _wacom_device : WacomDevice W;
  drawings : list TuhiDrawing.t;
  _bluez_device : BlueZDevice.t;
  pairing : bool;
  calls : list call
}.

Definition __init__ (bluez_device : BlueZDevice.t) (tuhi_dbus_device : TuhiDBusDevice.t)
  : t :=
  {| _tuhi_dbus_device := tuhi_dbus_device;
     _wacom_device := WacomDevice__init__ W bluez_device;
     drawings := [];
     _bluez_device := bluez_device;
     pairing := false;
     calls := [] |}.

Definition set_tuhi_dbus_device (self : t) (d : TuhiDBusDevice.t) : t :=
  {| _tuhi_dbus_device := d; _wacom_device := _wacom_device self;
     drawings := drawings self; _bluez_device := _bluez_device self;
     pairing := pairing self; calls := calls self |}.

Definition set_pairing (self : t) (b : bool) : t :=
  {| _tuhi_dbus_device := _tuhi_dbus_device self; _wacom_device := _wacom_device self;
     drawings := drawings self; _bluez_device := _bluez_device self;
     pairing := b; calls := calls self |}.

(** A call on the protocol driver: it moves the driver and is logged. *)
Definition wacom_call (self : t) (c : call) (f : WacomDevice W → WacomDevice W) : t :=
  {| _tuhi_dbus_device := _tuhi_dbus_device self;
     _wacom_device := f (_wacom_device self);
     drawings := drawings self; _bluez_device := _bluez_device self;
     pairing := pairing self; calls := calls self ++ [c] |}.

(** A call on the transport, logged. *)
Definition bluez_call (self : t) (c : call) : t :=
  {| _tuhi_dbus_device := _tuhi_dbus_device self; _wacom_device := _wacom_device self;
     drawings := drawings self; _bluez_device := _bluez_device self;
     pairing := pairing self; calls := calls self ++ [c] |}.

(** The property [pairingmode]: its value, and the device after the
    assignment to the D-Bus device. *)
Definition pairingmode (self : t) : t * bool :=
  let manufacturer_data := get_manufacturer_data (_bluez_device self) WACOM_COMPANY_ID in
  let pairingmode := bool_decide (length manufacturer_data = 4%nat) in
  let self :=
    set_tuhi_dbus_device self
      (TuhiDBusDevice.set_pairingmode (_tuhi_dbus_device self) pairingmode) in
  (self, pairingmode).

Definition _on_bluez_device_connected (self : t) : t :=
  if negb (working W (_wacom_device self)) then
    if negb (pairing self) then
      wacom_call self wacom_start (start W)
    else
      let self := wacom_call self wacom_start_pairing (start_pairing W) in
      set_pairing self false
  else self.

(** [self._bluez_device.connect_device()]: either the transport is asked
    to connect, or the device is connected already and its
    ['connected'] signal runs the handler registered by [__init__]. *)
Definition connect_device (self : t) : t :=
  match BlueZDevice.connect_device (_bluez_device self) with
  | BlueZDevice.emit_connected => _on_bluez_device_connected self
  | BlueZDevice.call_Connect => bluez_call self bluez_Connect
  end.

Definition retrieve_data (self : t) : t := connect_device self.

Definition _on_pairing (self : t) : t :=
  let self := set_pairing self true in
  connect_device self.

Definition _on_bluez_device_disconnected (self : t) : t := self.

Definition _on_fetching_finished (self : t) : t :=
  bluez_call self bluez_disconnect_device.

(** [x += lastx] *)
Definition iadd (x : Z) (lastx : option Z) : result Z :=
  match lastx with
  | Some l => Ok (x + l)
  | None => Raise TypeError
  end.

(** One of the three blocks [if x is not None: ...] of the inner loop:
    the values of [x] and [lastx] after it. *)
Definition channel (type : Stroke.encoding) (x lastx : option Z)
  : result (option Z * option Z) :=
  match x with
  | Some x =>
      x ← (if decide (type = Stroke.RELATIVE) then iadd x lastx else Ok x);
      let lastx := Some x in
      Ok (Some x, lastx)
  | None => Ok (None, lastx)
  end.

(** The body of [for type, x, y, p in s.points]. *)
Definition point_body
    (st : TuhiDrawing.Stroke.t * option Z * option Z * option Z) (pt : Stroke.point)
  : result (TuhiDrawing.Stroke.t * option Z * option Z * option Z) :=
  let '(stroke, lastx, lasty, lastp) := st in
  let '(type, x, y, p) := pt in
  '(x, lastx) ← channel type x lastx;
  '(y, lasty) ← channel type y lasty;
  '(p, lastp) ← channel type p lastp;
  let '(lastx, lasty, lastp) := (x, y, p) in
  let point := TuhiDrawing.Point.__init__ in
  let point :=
    TuhiDrawing.Point.set_position point (PyTuple [of_option lastx; of_option lasty]) in
  let point := TuhiDrawing.Point.set_pressure point (of_option lastp) in
  Ok ({| TuhiDrawing.Stroke.points := TuhiDrawing.Stroke.points stroke ++ [point] |},
      lastx, lasty, lastp).

(** The body of [for s in drawing]. *)
Definition stroke_body (d : TuhiDrawing.t) (s : Stroke.t) : result TuhiDrawing.t :=
  let stroke := TuhiDrawing.Stroke.__init__ in
  let '(lastx, lasty, lastp) := (@None Z, @None Z, @None Z) in
  '(stroke, _, _, _) ← for_each point_body (Stroke.points s) (stroke, lastx, lasty, lastp);
  Ok {| TuhiDrawing.name := TuhiDrawing.name d;
        TuhiDrawing.dimensions := TuhiDrawing.dimensions d;
        TuhiDrawing.timestamp := TuhiDrawing.timestamp d;
        TuhiDrawing.strokes := TuhiDrawing.strokes d ++ [stroke] |}.

(** [device_name] is [device.name] of the driver that sends the
    drawing. *)
Definition _on_drawing_received (self : t) (device_name : string) (drawing : Drawing.t)
  : result t :=
  let d := TuhiDrawing.__init__ device_name (0, 0) (Drawing.timestamp drawing) in
  d ← for_each stroke_body (Drawing.strokes drawing) d;
  Ok (set_tuhi_dbus_device self (TuhiDBusDevice.add_drawing (_tuhi_dbus_device self) d)).

End driver.

End TuhiDevice.

(** ** class Tuhi *)

Module Tuhi.

Section driver.
Context (W : WacomDriver).

Record t := {
  server : TuhiDBusServer.t;
  devices : gmap string (TuhiDevice.t W)
}.

Definition __init__ : t :=
  {| server := TuhiDBusServer.__init__; devices := ∅ |}.

(** The session that [self.devices] holds for the address, created
    first when the address is not a key. *)
Definition get_tuhi_device (self : t) (bluez_device : BlueZDevice.t)
  : t * TuhiDevice.t W :=
  match devices self !! BlueZDevice.address bluez_device with
  | None =>
      let '(server, tuhi_dbus_device) :=
        TuhiDBusServer.create_device (server self) bluez_device in
      let d := TuhiDevice.__init__ W bluez_device tuhi_dbus_device in
      ({| server := server;
          devices := <[BlueZDevice.address bluez_device := d]> (devices self) |},
       d)
  | Some d => (self, d)
  end.

(** [tuhi_dev] is the object that [self.devices] holds: what the
    handler does to it is stored under its key. *)
Definition _on_bluez_device_updated (self : t) (bluez_device : BlueZDevice.t) : t :=
  if decide (BlueZDevice.vendor_id bluez_device ≠ WACOM_COMPANY_ID) then self
  else
    let '(self, tuhi_dev) := get_tuhi_device self bluez_device in
    let '(tuhi_dev, pairingmode) := TuhiDevice.pairingmode W tuhi_dev in
    let tuhi_dev :=
      if negb pairingmode then TuhiDevice.retrieve_data W tuhi_dev else tuhi_dev in
    {| server := server self;
       devices := <[BlueZDevice.address bluez_device := tuhi_dev]> (devices self) |}.

End driver.

End Tuhi.

(** * Properties *)

(** ** Vocabulary of topology resolution *)

(** The characteristic object that [BlueZCharacteristic.__init__] builds
    for a transport object with the characteristic interface [i]. *)
Definition new_characteristic (obj : DBusObject) (i : GattCharacteristic1)
  : BlueZCharacteristic.t :=
  {| BlueZCharacteristic.obj := obj;
     BlueZCharacteristic.objpath := get_object_path obj;
     BlueZCharacteristic.interface := i;
     BlueZCharacteristic.uuid := UUID i;
     BlueZCharacteristic._property_callbacks := ∅;
     BlueZCharacteristic.StartNotify_calls := 0%nat |}.

(** The characteristics that a set of objects holds for a service, each
    with its UUID. *)
Definition service_candidates (service_path : string) (objects : list DBusObject)
  : list (string * BlueZCharacteristic.t) :=
  objects ≫= λ obj,
    match ORG_BLUEZ_GATTCHARACTERISTIC1 obj with
    | Some i =>
        if decide (Service i = service_path) then [(UUID i, new_characteristic obj i)]
        else []
    | None => []
    end.

Definition is_service_of_device (device_path : string) (obj : DBusObject) : bool :=
  match ORG_BLUEZ_GATTSERVICE1 obj with
  | Some i => bool_decide (Device i = device_path)
  | None => false
  end.

(** The services that a set of objects holds for a device. *)
Definition device_services (device_path : string) (objects : list DBusObject)
  : list DBusObject :=
  filter (λ obj, is_service_of_device device_path obj) objects.

(** The characteristics that a set of objects holds for a device: those
    of each of its services. *)
Definition candidates (device_path : string) (objects : list DBusObject)
  : list (string * BlueZCharacteristic.t) :=
  device_services device_path objects
    ≫= λ s, service_candidates (get_object_path s) objects.

(** A device with given characteristics and services. *)
Definition with_resolution (self : BlueZDevice.t)
    (c : gmap string BlueZCharacteristic.t) (s : list DBusObject) : BlueZDevice.t :=
  {| BlueZDevice.objpath := BlueZDevice.objpath self;
     BlueZDevice.obj := BlueZDevice.obj self;
     BlueZDevice.interface := BlueZDevice.interface self;
     BlueZDevice.address := BlueZDevice.address self;
     BlueZDevice.name := BlueZDevice.name self;
     BlueZDevice.uuids := BlueZDevice.uuids self;
     BlueZDevice.vendor_id := BlueZDevice.vendor_id self;
     BlueZDevice.characteristics := c;
     BlueZDevice.gatt_services := s |}.

(** What [resolve] makes of a device: the characteristics it has, then
    those found for it that it lacks; the services are found anew. *)
Definition resolved (self : BlueZDevice.t) (om : list DBusObject) : BlueZDevice.t :=
  with_resolution self
    (BlueZDevice.characteristics self
       ∪ list_to_map (candidates (BlueZDevice.objpath self) om))
    (device_services (BlueZDevice.objpath self) om).

(** The final mapping of a manager: for the path of each device, the
    characteristics of the device by UUID (each characteristic names its
    service). *)
Definition mapping (self : BlueZDeviceManager.t)
  : gmap string (gmap string BlueZCharacteristic.t) :=
  list_to_map
    ((λ d, (BlueZDevice.objpath d, BlueZDevice.characteristics d))
       <$> BlueZDeviceManager.devices self).

(** An object with the characteristic interface that is neither an
    adapter nor a device. *)
Definition plain_characteristic (obj : DBusObject) : bool :=
  match ORG_BLUEZ_GATTCHARACTERISTIC1 obj with
  | Some _ =>
      bool_decide (ORG_BLUEZ_ADAPTER1 obj = None)
      && bool_decide (ORG_BLUEZ_DEVICE1 obj = None)
  | None => true
  end.



(** Under each path, the characteristics found for a device have
    pairwise distinct UUIDs. *)
Definition uuids_distinct (objs : list DBusObject) : Prop :=
  Forall (λ dev, NoDup (candidates (get_object_path dev) objs).*1) objs.

(** The device that the announcement of an object adds to the manager,
    before it is resolved: none for an adapter, for an object without the
    device interface, and when the constructor raises. *)
Definition announced_device (obj : DBusObject) : option BlueZDevice.t :=
  if decide (is_Some (ORG_BLUEZ_ADAPTER1 obj)) then None
  else if decide (is_Some (ORG_BLUEZ_DEVICE1 obj)) then
    match BlueZDevice.__init__ [] obj with
    | Ok d => Some d
    | Raise _ => None
    end
  else None.

(** Example objects: a device, two of its services, and a characteristic
    of each service, both under the same UUID. *)
Definition dev_obj : DBusObject :=
  {| get_object_path := "/dev";
     ORG_BLUEZ_ADAPTER1 := None;
     ORG_BLUEZ_DEVICE1 :=
       Some {| Address := Some "E2:43:03:67:0E:01"; Name := Some "pad";
               UUIDs := Some []; ManufacturerData := None; Connected := false |};
     ORG_BLUEZ_GATTSERVICE1 := None;
     ORG_BLUEZ_GATTCHARACTERISTIC1 := None |}.

Definition service_obj (path : string) : DBusObject :=
  {| get_object_path := path;
     ORG_BLUEZ_ADAPTER1 := None;
     ORG_BLUEZ_DEVICE1 := None;
     ORG_BLUEZ_GATTSERVICE1 := Some {| Device := "/dev" |};
     ORG_BLUEZ_GATTCHARACTERISTIC1 := None |}.

Definition characteristic_obj (path service : string) : DBusObject :=
  {| get_object_path := path;
     ORG_BLUEZ_ADAPTER1 := None;
     ORG_BLUEZ_DEVICE1 := None;
     ORG_BLUEZ_GATTSERVICE1 := None;
     ORG_BLUEZ_GATTCHARACTERISTIC1 := Some {| Service := service; UUID := "u1" |} |}.

Definition svc1 : DBusObject := service_obj "/dev/svc1".
Definition chr_a : DBusObject := characteristic_obj "/dev/svc1/a" "/dev/svc1".

Definition chrc_a : BlueZCharacteristic.t :=
  new_characteristic chr_a {| Service := "/dev/svc1"; UUID := "u1" |}.

(** ** Vocabulary of the drawing decoder *)

(** The three channels of a raw point. *)
Inductive channel_name := chan_x | chan_y | chan_p.

Definition raw_value (c : channel_name) (pt : Stroke.point) : option Z :=
  let '(_, x, y, p) := pt in
  match c with chan_x => x | chan_y => y | chan_p => p end.

Definition encoding_of (pt : Stroke.point) : Stroke.encoding :=
  let '(type, _, _, _) := pt in type.

(** The encoding of the first point of a stroke whose raw value on the
    channel is present. *)
Fixpoint first_present (c : channel_name) (pts : list Stroke.point)
  : option Stroke.encoding :=
  match pts with
  | [] => None
  | pt :: pts =>
      if decide (is_Some (raw_value c pt)) then Some (encoding_of pt)
      else first_present c pts
  end.

(** The point that the decoder builds from the three values it ends up
    with. *)
Definition decoded_point (x y p : option Z) : TuhiDrawing.Point.t :=
  {| TuhiDrawing.Point.toffset := None;
     TuhiDrawing.Point.position := Some (PyTuple [of_option x; of_option y]);
     TuhiDrawing.Point.pressure := Some (of_option p) |}.

(** The stroke of the spec's example, and the same stroke followed by one
    more relative point. *)
Definition example_points : list Stroke.point :=
  [ (Stroke.ABSOLUTE, Some 10, Some 20, Some 5);
    (Stroke.RELATIVE, Some 3, Some (-2), Some 0);
    (Stroke.RELATIVE, None, Some 5, None) ].

Definition example_stroke : Stroke.t := {| Stroke.points := example_points |}.

Definition example_stroke_continued : Stroke.t :=
  {| Stroke.points := example_points ++ [(Stroke.RELATIVE, Some 1, Some 1, Some 1)] |}.

Definition empty_drawing : TuhiDrawing.t := TuhiDrawing.__init__ "pad" (0, 0) 0.

(** The decoded strokes of the drawing that [stroke_body] returns. *)
Definition decoded_strokes (r : result TuhiDrawing.t)
  : result (list (list TuhiDrawing.Point.t)) :=
  d ← r; Ok (map TuhiDrawing.Stroke.points (TuhiDrawing.strokes d)).

(** The values of [lastx], [lasty] and [lastp] with which the inner loop
    builds each point, one triple per run of its body: the loop is run
    from the given state and the three variables are read off the state
    that the body returns.  The list stops where the body raises. *)
Fixpoint held_values
    (pts : list Stroke.point)
    (st : TuhiDrawing.Stroke.t * option Z * option Z * option Z)
  : list (option Z * option Z * option Z) :=
  match pts with
  | [] => []
  | pt :: pts =>
      match TuhiDevice.point_body st pt with
      | Ok (stroke, lastx, lasty, lastp) =>
          (lastx, lasty, lastp) :: held_values pts (stroke, lastx, lasty, lastp)
      | Raise _ => []
      end
  end.

(** The same for a stroke, from the state in which [stroke_body] enters
    the inner loop. *)
Definition held (s : Stroke.t) : list (option Z * option Z * option Z) :=
  held_values (Stroke.points s) (TuhiDrawing.Stroke.__init__, None, None, None).

(** The record of a point built while the decoder holds the three values:
    no time offset; a position always, the pair of the two values with
    [None] for one that is not held; a pressure when one is held. *)
Definition point_record (v : option Z * option Z * option Z) : list (string * pyval) :=
  let '(x, y, p) := v in
  ("position"%string, PyTuple [of_option x; of_option y])
  :: match p with
     | Some p => [("pressure"%string, PyInt p)]
     | None => []
     end.

(** The record of a stroke: one point record per triple held. *)
Definition stroke_record (s : Stroke.t) : pyval :=
  PyDict [("points"%string, PyList (map (λ v, PyDict (point_record v)) (held s)))].


(** A stroke that opens with a relative point, and a stroke whose only
    point has a pressure and no position. *)
Definition relative_first_stroke : Stroke.t :=
  {| Stroke.points := [(Stroke.RELATIVE, Some 3, None, None)] |}.

Definition pressure_only_stroke : Stroke.t :=
  {| Stroke.points := [(Stroke.ABSOLUTE, None, None, Some 5)] |}.

(** A protocol driver to run examples with: it works from its first call
    on. *)
Definition example_driver : WacomDriver :=
  {| WacomDevice := bool;
     WacomDevice__init__ := λ _, false;
     working := λ w, w;
     start := λ _, true;
     start_pairing := λ _, true |}.

(** The sessions of an orchestrator that looked up, one after the other,
    the devices of a sequence of device events. *)
Definition sessions (W : WacomDriver) (events : list BlueZDevice.t) : Tuhi.t W :=
  foldl (λ self bluez_device, (Tuhi.get_tuhi_device W self bluez_device).1)
        (Tuhi.__init__ W) events.

(** The invariant of the orchestrator: one call of [create_device] per
    address, and a session for exactly the addresses it was called for. *)
Definition one_session_each (W : WacomDriver) (self : Tuhi.t W) : Prop :=
  NoDup (BlueZDevice.address <$> TuhiDBusServer.created (Tuhi.server W self))
  ∧ dom (Tuhi.devices W self)
    =@{gset string}
      list_to_set (BlueZDevice.address <$> TuhiDBusServer.created (Tuhi.server W self)).

(** The device that the manager builds for [dev_obj] when it is the only
    object, and a session for it. *)
Definition example_device : BlueZDevice.t :=
  {| BlueZDevice.objpath := "/dev";
     BlueZDevice.obj := dev_obj;
     BlueZDevice.interface :=
       {| Address := Some "E2:43:03:67:0E:01"; Name := Some "pad";
          UUIDs := Some []; ManufacturerData := None; Connected := false |};
     BlueZDevice.address := "E2:43:03:67:0E:01";
     BlueZDevice.name := "pad";
     BlueZDevice.uuids := [];
     BlueZDevice.vendor_id := 0;
     BlueZDevice.characteristics := ∅;
     BlueZDevice.gatt_services := [] |}.

(** A device that advertises a payload for the Wacom company id. *)
Definition advertising (payload : list Z) : BlueZDevice.t :=
  {| BlueZDevice.objpath := "/dev";
     BlueZDevice.obj := dev_obj;
     BlueZDevice.interface :=
       {| Address := Some "E2:43:03:67:0E:01"; Name := Some "pad";
          UUIDs := Some []; ManufacturerData := Some [(WACOM_COMPANY_ID, payload)];
          Connected := false |};
     BlueZDevice.address := "E2:43:03:67:0E:01";
     BlueZDevice.name := "pad";
     BlueZDevice.uuids := [];
     BlueZDevice.vendor_id := WACOM_COMPANY_ID;
     BlueZDevice.characteristics := ∅;
     BlueZDevice.gatt_services := [] |}.

Definition session_of (bluez_device : BlueZDevice.t) : TuhiDevice.t example_driver :=
  TuhiDevice.__init__ example_driver bluez_device
    (TuhiDBusServer.create_device TuhiDBusServer.__init__ bluez_device).2.

Definition example_session : TuhiDevice.t example_driver :=
  TuhiDevice.__init__ example_driver example_device
    (TuhiDBusServer.create_device TuhiDBusServer.__init__ example_device).2.

(** The running value of a channel in the state of the inner loop. *)
Definition running (c : channel_name)
    (st : TuhiDrawing.Stroke.t * option Z * option Z * option Z) : option Z :=
  let '(_, lastx, lasty, lastp) := st in
  match c with chan_x => lastx | chan_y => lasty | chan_p => lastp end.

(** ** Vocabulary of the further properties *)

(** Whether a point, if there is one, has a value on a channel. *)
Definition has_value (c : channel_name) (prev : option Stroke.point) : bool :=
  match prev with
  | Some q => bool_decide (is_Some (raw_value c q))
  | None => false
  end.

(** A raw point that the decoder accepts after the point [prev] (none at
    the start of a stroke): an absolute point always, a relative point
    when each value it carries follows a value of [prev] on the same
    channel. *)
Definition follows (prev : option Stroke.point) (pt : Stroke.point) : bool :=
  match encoding_of pt with
  | Stroke.ABSOLUTE => true
  | Stroke.RELATIVE =>
      forallb (λ c, implb (has_value c (Some pt)) (has_value c prev))
              [chan_x; chan_y; chan_p]
  end.

Fixpoint well_chained (prev : option Stroke.point) (pts : list Stroke.point) : bool :=
  match pts with
  | [] => true
  | pt :: pts => follows prev pt && well_chained (Some pt) pts
  end.

Definition sum_Z (l : list Z) : Z := foldr Z.add 0 l.

(** A stroke made of one absolute point with all three values, then of
    relative points that carry the given offsets on all three channels. *)
Definition offsets_stroke (x0 y0 p0 : Z) (offsets : list (Z * Z * Z)) : Stroke.t :=
  {| Stroke.points :=
       (Stroke.ABSOLUTE, Some x0, Some y0, Some p0)
       :: ((λ '(dx, dy, dp), (Stroke.RELATIVE, Some dx, Some dy, Some dp)) <$> offsets) |}.

(** The absolute points of such a stroke: the first point, then for each
    offset the first point plus the sum of the offsets up to it. *)
Definition summed_points (x0 y0 p0 : Z) (offsets : list (Z * Z * Z))
  : list TuhiDrawing.Point.t :=
  imap (λ i _,
          decoded_point
            (Some (x0 + sum_Z (take (S i) ((λ o, o.1.1) <$> offsets))))
            (Some (y0 + sum_Z (take (S i) ((λ o, o.1.2) <$> offsets))))
            (Some (p0 + sum_Z (take (S i) ((λ o, o.2) <$> offsets)))))
       offsets.

(** A stroke of absolute points only. *)
Definition absolute_stroke : Stroke.t :=
  {| Stroke.points :=
       [ (Stroke.ABSOLUTE, Some 10, Some 20, None);
         (Stroke.ABSOLUTE, None, None, Some 5);
         (Stroke.ABSOLUTE, Some 12, None, Some 6) ] |}.

(** The point that the decoder builds from a raw point taken as it is. *)
Definition verbatim (pt : Stroke.point) : TuhiDrawing.Point.t :=
  let '(_, x, y, p) := pt in decoded_point x y p.

(** A drawing with one more stroke. *)
Definition add_stroke (d : TuhiDrawing.t) (points : list TuhiDrawing.Point.t)
  : TuhiDrawing.t :=
  {| TuhiDrawing.name := TuhiDrawing.name d;
     TuhiDrawing.dimensions := TuhiDrawing.dimensions d;
     TuhiDrawing.timestamp := TuhiDrawing.timestamp d;
     TuhiDrawing.strokes :=
       TuhiDrawing.strokes d ++ [{| TuhiDrawing.Stroke.points := points |}] |}.

(** An object from which the constructor of a device returns: it has the
    device interface with Address, Name and UUIDs, and manufacturer data,
    if any, for at least one vendor. *)
Definition constructible (obj : DBusObject) : bool :=
  match ORG_BLUEZ_DEVICE1 obj with
  | Some i =>
      bool_decide (is_Some (Address i)) && bool_decide (is_Some (Name i))
      && bool_decide (is_Some (UUIDs i)) && bool_decide (ManufacturerData i ≠ Some [])
  | None => false
  end.

(** The first vendor of the manufacturer data, 0 without. *)
Definition advertised_vendor (i : Device1) : Z :=
  match ManufacturerData i with
  | Some ((k, _) :: _) => k
  | _ => 0
  end.

(** An object that the manager processes as a device. *)
Definition is_device_object (obj : DBusObject) : bool :=
  bool_decide (ORG_BLUEZ_ADAPTER1 obj = None)
  && bool_decide (is_Some (ORG_BLUEZ_DEVICE1 obj)).

(** The devices built from the objects [l], each resolved against [om]. *)
Definition enumerated (om l : list DBusObject) : list BlueZDevice.t :=
  omap (λ obj, (λ d, resolved d om) <$> announced_device obj) l.

(** The device [d'] is the device [d] with, possibly, more
    characteristics and other services. *)
Definition grown (d d' : BlueZDevice.t) : Prop :=
  BlueZDevice.objpath d' = BlueZDevice.objpath d
  ∧ BlueZDevice.obj d' = BlueZDevice.obj d
  ∧ BlueZDevice.interface d' = BlueZDevice.interface d
  ∧ BlueZDevice.address d' = BlueZDevice.address d
  ∧ BlueZDevice.name d' = BlueZDevice.name d
  ∧ BlueZDevice.uuids d' = BlueZDevice.uuids d
  ∧ BlueZDevice.vendor_id d' = BlueZDevice.vendor_id d
  ∧ BlueZDevice.characteristics d ⊆ BlueZDevice.characteristics d'.

(** The device that a device-added signal carries. *)
Definition signalled (s : BlueZDeviceManager.signal) : BlueZDevice.t :=
  match s with BlueZDeviceManager.device_added dev => dev end.

(** The calls that a batch of changed properties makes, one property at a
    time. *)
Definition dispatched {V} (callbacks : gmap string Callback) (properties : list (string * V))
  : list (Callback * string * V) :=
  omap (λ '(name, value), (λ cb, (cb, name, value)) <$> callbacks !! name) properties.

(** ** The exception monad *)

Lemma bind_Ok {A B} (a : A) (f : A → result B) : Ok a ≫= f = f a.
Proof. reflexivity. Qed.

Lemma bind_Raise {A B} (e : exn) (f : A → result B) : Raise e ≫= f = Raise e.
Proof. reflexivity. Qed.

Lemma for_each_cons {A S} (body : S → A → result S) a l s :
  for_each body (a :: l) s = body s a ≫= for_each body l.
Proof. reflexivity. Qed.

(** ** The drawing decoder *)

Section decoder.

Lemma channel_raises type x lastx e :
  TuhiDevice.channel type x lastx = Raise e → e = TypeError.
Proof.
  destruct x as [x|], type, lastx as [l|]; simpl; congruence.
Qed.

Lemma channel_relative_unknown x :
  TuhiDevice.channel Stroke.RELATIVE (Some x) None = Raise TypeError.
Proof. reflexivity. Qed.

(** Shape of a successful run of the loop body: the point appended is
    built from the three outputs, which are also the running values. *)
Lemma point_body_Ok stroke lastx lasty lastp pt st' :
  TuhiDevice.point_body (stroke, lastx, lasty, lastp) pt = Ok st' →
  ∃ x y p,
    st' = ({| TuhiDrawing.Stroke.points :=
                TuhiDrawing.Stroke.points stroke ++ [decoded_point x y p] |}, x, y, p)
    ∧ (is_Some x ↔ is_Some (raw_value chan_x pt))
    ∧ (is_Some y ↔ is_Some (raw_value chan_y pt))
    ∧ (is_Some p ↔ is_Some (raw_value chan_p pt)).
Proof.
  destruct pt as [[[type x] y] p]. unfold TuhiDevice.point_body.
  destruct (TuhiDevice.channel type x lastx) as [[x' lx]|] eqn:Hx; simpl; [|done].
  destruct (TuhiDevice.channel type y lasty) as [[y' ly]|] eqn:Hy; simpl; [|done].
  destruct (TuhiDevice.channel type p lastp) as [[p' lp]|] eqn:Hp; simpl; [|done].
  intros [= <-]. exists x', y', p'. split; [done|].
  assert (Hch : ∀ v l v' l', TuhiDevice.channel type v l = Ok (v', l') →
                 (is_Some v' ↔ is_Some v)).
  { intros [v|] l v' l'; unfold TuhiDevice.channel.
    - destruct (decide (type = Stroke.RELATIVE)); [destruct l|]; simpl;
        intros [= <- <-] || intros [=]; done.
    - intros [= <- <-]. done. }
  split_and!; eapply Hch; eassumption.
Qed.

Lemma point_body_raises st pt e :
  TuhiDevice.point_body st pt = Raise e → e = TypeError.
Proof.
  destruct st as [[[stroke lastx] lasty] lastp], pt as [[[type x] y] p].
  unfold TuhiDevice.point_body.
  destruct (TuhiDevice.channel type x lastx) as [[x' lx]|] eqn:Hx; simpl;
    [|intros [= <-]; eauto using channel_raises].
  destruct (TuhiDevice.channel type y lasty) as [[y' ly]|] eqn:Hy; simpl;
    [|intros [= <-]; eauto using channel_raises].
  destruct (TuhiDevice.channel type p lastp) as [[p' lp]|] eqn:Hp; simpl;
    [|intros [= <-]; eauto using channel_raises].
  done.
Qed.

(** After a point that leaves a channel out, the running value of that
    channel is unknown. *)
Lemma point_body_forgets c st pt st' :
  raw_value c pt = None →
  TuhiDevice.point_body st pt = Ok st' →
  running c st' = None.
Proof.
  destruct st as [[[stroke lastx] lasty] lastp]. intros Hraw Hok.
  destruct (point_body_Ok _ _ _ _ _ _ Hok) as (x & y & p & -> & Hx & Hy & Hp).
  destruct c; simpl; rewrite Hraw in *.
  - destruct x; [|done]. destruct Hx as [Hx _]. by destruct Hx.
  - destruct y; [|done]. destruct Hy as [Hy _]. by destruct Hy.
  - destruct p; [|done]. destruct Hp as [Hp _]. by destruct Hp.
Qed.

(** A relative value on a channel whose running value is unknown aborts
    the loop body. *)
Lemma point_body_relative_unknown c st pt :
  running c st = None →
  is_Some (raw_value c pt) →
  encoding_of pt = Stroke.RELATIVE →
  TuhiDevice.point_body st pt = Raise TypeError.
Proof.
  destruct st as [[[stroke lastx] lasty] lastp], pt as [[[type x] y] p].
  intros Hrun Hraw Henc. cbn in Henc. subst type.
  destruct (TuhiDevice.point_body (stroke, lastx, lasty, lastp)
              (Stroke.RELATIVE, x, y, p)) as [st'|e] eqn:Hbody.
  - exfalso. revert Hbody. unfold TuhiDevice.point_body.
    destruct c; simpl in *; subst; destruct Hraw as [v ->].
    + by rewrite channel_relative_unknown.
    + rewrite channel_relative_unknown.
      by destruct (TuhiDevice.channel _ x lastx) as [[??]|].
    + rewrite channel_relative_unknown.
      destruct (TuhiDevice.channel _ x lastx) as [[??]|]; [|done].
      by destruct (TuhiDevice.channel _ y lasty) as [[??]|].
  - by rewrite (point_body_raises _ _ _ Hbody).
Qed.

Lemma points_relative_first c pts st :
  running c st = None →
  first_present c pts = Some Stroke.RELATIVE →
  for_each TuhiDevice.point_body pts st = Raise TypeError.
Proof.
  revert st. induction pts as [|pt pts IH]; intros st Hrun; simpl; [done|].
  case_decide as Hraw.
  - intros [= Henc]. by rewrite (point_body_relative_unknown c st pt).
  - intros Hfirst.
    destruct (TuhiDevice.point_body st pt) as [st'|e] eqn:Hbody; simpl.
    + apply IH; [|done]. eapply point_body_forgets; [|done].
      by destruct (raw_value c pt); [destruct Hraw|].
    + by rewrite (point_body_raises _ _ _ Hbody).
Qed.




Lemma points_raise pts st e :
  for_each TuhiDevice.point_body pts st = Raise e → e = TypeError.
Proof.
  revert st. induction pts as [|pt pts IH]; intros st; [done|].
  rewrite for_each_cons.
  destruct (TuhiDevice.point_body st pt) as [st'|e'] eqn:Hbody.
  - rewrite bind_Ok. apply IH.
  - rewrite bind_Raise. intros [= <-]. eauto using point_body_raises.
Qed.

Lemma stroke_body_raises d s e :
  TuhiDevice.stroke_body d s = Raise e → e = TypeError.
Proof.
  unfold TuhiDevice.stroke_body.
  destruct (for_each _ _ _) as [[[[??]?]?]|e'] eqn:Hpts.
  - by rewrite bind_Ok.
  - rewrite bind_Raise. intros [= <-]. eauto using points_raise.
Qed.

Lemma stroke_body_relative_first d s c :
  first_present c (Stroke.points s) = Some Stroke.RELATIVE →
  TuhiDevice.stroke_body d s = Raise TypeError.
Proof.
  intros Hfirst. unfold TuhiDevice.stroke_body.
  rewrite (points_relative_first c); [done| |done]. by destruct c.
Qed.

Lemma strokes_relative_first strokes s c d :
  s ∈ strokes →
  first_present c (Stroke.points s) = Some Stroke.RELATIVE →
  for_each TuhiDevice.stroke_body strokes d = Raise TypeError.
Proof.
  intros Hin Hfirst. revert d.
  induction strokes as [|s' strokes IH]; intros d; [by apply elem_of_nil in Hin|].
  rewrite for_each_cons.
  destruct (TuhiDevice.stroke_body d s') as [d'|e] eqn:Hbody.
  - rewrite bind_Ok. apply elem_of_cons in Hin as [->|Hin]; [|by apply IH].
    by rewrite (stroke_body_relative_first d s' c) in Hbody.
  - by rewrite (stroke_body_raises _ _ _ Hbody).
Qed.

(** C1: run on the stroke of the spec's example, the decoder does not
    carry the running value across the third point, which leaves x and
    pressure out: the third decoded point has neither (where the spec
    expects 13 and 5), and a further relative point with all three values
    aborts the decoder with a [TypeError]. *)
Theorem delta_decode_example :
  decoded_strokes (TuhiDevice.stroke_body empty_drawing example_stroke)
  = Ok [[ decoded_point (Some 10) (Some 20) (Some 5);
          decoded_point (Some 13) (Some 18) (Some 5);
          decoded_point None (Some 23) None ]]
  ∧ TuhiDevice.stroke_body empty_drawing example_stroke_continued = Raise TypeError.
Proof. split; reflexivity. Qed.

(** C8: a stroke in which, on some channel, the first point with a value
    is relative aborts the decoder with a [TypeError]: the stroke itself,
    and every drawing that holds it.  Conversely put, the decoder returns
    only if on every channel the first value present is absolute. *)
Theorem decoder_needs_absolute_first
    (W : WacomDriver) (self : TuhiDevice.t W) (device_name : string)
    (drawing : Drawing.t) (d : TuhiDrawing.t) (s : Stroke.t) (c : channel_name) :
  s ∈ Drawing.strokes drawing →
  first_present c (Stroke.points s) = Some Stroke.RELATIVE →
  TuhiDevice.stroke_body d s = Raise TypeError
  ∧ TuhiDevice._on_drawing_received W self device_name drawing = Raise TypeError.
Proof.
  intros Hin Hfirst. split; [by apply (stroke_body_relative_first d s c)|].
  unfold TuhiDevice._on_drawing_received.
  by rewrite (strokes_relative_first _ s c).
Qed.




End decoder.

(** ** Topology resolution of one device *)

Section resolution.

Implicit Types (self : BlueZDevice.t) (m : gmap string BlueZCharacteristic.t).
Implicit Types (objects om : list DBusObject) (obj : DBusObject).

Lemma characteristic_init obj i :
  ORG_BLUEZ_GATTCHARACTERISTIC1 obj = Some i →
  BlueZCharacteristic.__init__ obj = Ok (new_characteristic obj i).
Proof. intros Hi. unfold BlueZCharacteristic.__init__. by rewrite Hi. Qed.

Lemma union_insert_present m (l : gmap string BlueZCharacteristic.t) u c :
  is_Some (m !! u) → m ∪ <[u := c]> l = m ∪ l.
Proof.
  intros [x Hx]. apply map_eq. intros k. rewrite !lookup_union.
  destruct (decide (k = u)) as [->|Hne].
  - rewrite Hx. by destruct (<[u:=c]> l !! u), (l !! u).
  - by rewrite lookup_insert_ne.
Qed.

Lemma union_insert_absent m (l : gmap string BlueZCharacteristic.t) u c :
  m !! u = None → <[u := c]> m ∪ l = m ∪ <[u := c]> l.
Proof. intros Hu. by rewrite <-insert_union_l, insert_union_r. Qed.

Lemma service_candidates_cons service_path obj objects :
  service_candidates service_path (obj :: objects)
  = match ORG_BLUEZ_GATTCHARACTERISTIC1 obj with
    | Some i =>
        if decide (Service i = service_path) then [(UUID i, new_characteristic obj i)]
        else []
    | None => []
    end ++ service_candidates service_path objects.
Proof. reflexivity. Qed.

(** The inner loop adds, for the service, the characteristics that the
    device lacks. *)
Lemma resolve_gatt_characteristics_spec self service_obj objects : ∀ m s,
  BlueZDevice._resolve_gatt_characteristics (with_resolution self m s) service_obj objects
  = Ok (with_resolution self
          (m ∪ list_to_map (service_candidates (get_object_path service_obj) objects)) s).
Proof.
  unfold BlueZDevice._resolve_gatt_characteristics.
  induction objects as [|obj objects IH]; intros m s.
  - simpl. by rewrite (right_id_L ∅ (∪)).
  - rewrite for_each_cons, service_candidates_cons.
    destruct (ORG_BLUEZ_GATTCHARACTERISTIC1 obj) as [i|] eqn:Hi; [|by rewrite bind_Ok, IH].
    cbn zeta. destruct (decide (Service i ≠ get_object_path service_obj)) as [Hne|Heq].
    { rewrite decide_False by done. by rewrite bind_Ok, IH. }
    apply dec_stable in Heq. rewrite decide_True by done.
    rewrite (characteristic_init obj i Hi), bind_Ok.
    change (BlueZCharacteristic.uuid (new_characteristic obj i)) with (UUID i).
    change (BlueZDevice.characteristics (with_resolution self m s)) with m.
    simpl app. rewrite list_to_map_cons. case_decide as Hin.
    + rewrite bind_Ok, IH. by rewrite union_insert_present.
    + rewrite bind_Ok.
      change (BlueZDevice.set_characteristics (with_resolution self m s)
                (<[UUID i := new_characteristic obj i]> m))
        with (with_resolution self (<[UUID i := new_characteristic obj i]> m) s).
      rewrite IH. rewrite union_insert_absent; [done|].
      by apply eq_None_not_Some.
Qed.

Lemma device_services_cons device_path obj objects :
  device_services device_path (obj :: objects)
  = (if is_service_of_device device_path obj then [obj] else [])
    ++ device_services device_path objects.
Proof.
  unfold device_services. rewrite filter_cons.
  by destruct (is_service_of_device device_path obj); simpl.
Qed.

(** The outer loop, run over any part [l] of the objects. *)
Lemma resolve_gatt_services_loop self objects l : ∀ m s,
  for_each (λ self obj,
      match ORG_BLUEZ_GATTSERVICE1 obj with
      | None => Ok self
      | Some i =>
          let device := Device i in
          if decide (device ≠ BlueZDevice.objpath self) then Ok self
          else
            let self :=
              BlueZDevice.set_gatt_services self (BlueZDevice.gatt_services self ++ [obj]) in
            BlueZDevice._resolve_gatt_characteristics self obj objects
      end) l (with_resolution self m s)
  = Ok (with_resolution self
          (m ∪ list_to_map (device_services (BlueZDevice.objpath self) l
                              ≫= λ s, service_candidates (get_object_path s) objects))
          (s ++ device_services (BlueZDevice.objpath self) l)).
Proof.
  induction l as [|obj l IH]; intros m s.
  - simpl. by rewrite (right_id_L ∅ (∪)), app_nil_r.
  - rewrite for_each_cons, device_services_cons. unfold is_service_of_device.
    destruct (ORG_BLUEZ_GATTSERVICE1 obj) as [i|] eqn:Hi; [|by rewrite bind_Ok, IH].
    cbn zeta. change (BlueZDevice.objpath (with_resolution self m s))
      with (BlueZDevice.objpath self).
    destruct (decide (Device i ≠ BlueZDevice.objpath self)) as [Hne|Heq].
    { rewrite bool_decide_eq_false_2 by done. by rewrite bind_Ok, IH. }
    apply dec_stable in Heq. rewrite bool_decide_eq_true_2 by done.
    change (BlueZDevice.set_gatt_services (with_resolution self m s)
              (BlueZDevice.gatt_services (with_resolution self m s) ++ [obj]))
      with (with_resolution self m (s ++ [obj])).
    rewrite resolve_gatt_characteristics_spec, bind_Ok, IH.
    rewrite bind_app, list_to_map_app, (assoc_L (∪)), <-(assoc_L (++)).
    simpl. by rewrite app_nil_r.
Qed.

(** [resolve] never raises, and returns the device [resolved]. *)
Lemma resolve_spec self om : BlueZDevice.resolve self om = Ok (resolved self om).
Proof.
  unfold BlueZDevice.resolve, BlueZDevice._resolve_gatt_services. cbn zeta.
  change (BlueZDevice.set_gatt_services self [])
    with (with_resolution self (BlueZDevice.characteristics self) []).
  by rewrite resolve_gatt_services_loop.
Qed.

Lemma resolved_twice self om : resolved (resolved self om) om = resolved self om.
Proof.
  unfold resolved at 1 3. simpl. f_equal.
  by rewrite <-(assoc_L (∪)), (idemp_L (∪)).
Qed.

(** C2: resolving a device returns normally; resolving the result again
    over the same objects returns that very device, characteristic map
    included; and resolving it over any other set of objects keeps every
    entry of the map as it is (one entry per UUID, none dropped, none
    replaced) and adds only entries for UUIDs that were missing, each
    taken from the characteristics found for the device. *)
Theorem resolve_idempotent (self : BlueZDevice.t) (om om' : list DBusObject) :
  ∃ d1 d2,
    BlueZDevice.resolve self om = Ok d1
    ∧ BlueZDevice.resolve d1 om = Ok d1
    ∧ BlueZDevice.resolve d1 om' = Ok d2
    ∧ BlueZDevice.characteristics self ⊆ BlueZDevice.characteristics d1
    ∧ BlueZDevice.characteristics d1 ⊆ BlueZDevice.characteristics d2
    ∧ ∀ u c, BlueZDevice.characteristics d2 !! u = Some c →
        BlueZDevice.characteristics d1 !! u = Some c
        ∨ (BlueZDevice.characteristics d1 !! u = None
           ∧ (u, c) ∈ candidates (BlueZDevice.objpath self) om').
Proof.
  exists (resolved self om), (resolved (resolved self om) om').
  split_and!; try apply resolve_spec.
  - by rewrite resolve_spec, resolved_twice.
  - apply map_union_subseteq_l.
  - apply map_union_subseteq_l.
  - intros u c [Hin|[Hnone Hin]]%lookup_union_Some_raw; [by left|right].
    split; [done|]. by apply elem_of_list_to_map_2 in Hin.
Qed.

(** C9: asking for the value changes of a UUID that the device has no
    characteristic for returns normally and leaves the device as it is:
    no callback is registered and no notification started on any of its
    characteristics. *)
Theorem connect_gatt_value_unknown
    (self : BlueZDevice.t) (uuid : string) (callback : Callback) :
  BlueZDevice.characteristics self !! uuid = None →
  BlueZDevice.connect_gatt_value self uuid callback = Ok self.
Proof.
  intros Hnone. unfold BlueZDevice.connect_gatt_value, getitem. by rewrite Hnone.
Qed.

End resolution.

(** ** The device manager: objects announced one at a time *)

Section manager.

Implicit Types (self : BlueZDeviceManager.t) (d : BlueZDevice.t).
Implicit Types (objs om : list DBusObject) (obj : DBusObject).

Lemma elem_of_service_candidates service_path objs u c :
  (u, c) ∈ service_candidates service_path objs
  ↔ ∃ co i, co ∈ objs ∧ ORG_BLUEZ_GATTCHARACTERISTIC1 co = Some i
            ∧ Service i = service_path ∧ u = UUID i ∧ c = new_characteristic co i.
Proof.
  unfold service_candidates. rewrite list_elem_of_bind. split.
  - intros (co & Hin & Hco). destruct (ORG_BLUEZ_GATTCHARACTERISTIC1 co) as [i|] eqn:Hi;
      [|by apply elem_of_nil in Hin].
    case_decide; [|by apply elem_of_nil in Hin].
    apply list_elem_of_singleton in Hin as [= -> ->]. by exists co, i.
  - intros (co & i & Hco & Hi & Hs & -> & ->). exists co. split; [|done].
    rewrite Hi, decide_True by done. by apply list_elem_of_singleton.
Qed.

Lemma elem_of_candidates device_path objs u c :
  (u, c) ∈ candidates device_path objs
  ↔ ∃ s co i, s ∈ objs ∧ is_service_of_device device_path s
              ∧ co ∈ objs ∧ ORG_BLUEZ_GATTCHARACTERISTIC1 co = Some i
              ∧ Service i = get_object_path s
              ∧ u = UUID i ∧ c = new_characteristic co i.
Proof.
  unfold candidates, device_services. rewrite list_elem_of_bind. split.
  - intros (s & Hin & [Hs Hsin]%list_elem_of_filter).
    apply elem_of_service_candidates in Hin as (co & i & ? & ? & ? & ? & ?).
    by exists s, co, i.
  - intros (s & co & i & Hsin & Hs & Hco & Hi & Hsvc & -> & ->). exists s.
    rewrite list_elem_of_filter, elem_of_service_candidates. split; [|done].
    by exists co, i.
Qed.

Lemma candidates_mono device_path objs objs' u c :
  objs ⊆ objs' → (u, c) ∈ candidates device_path objs → (u, c) ∈ candidates device_path objs'.
Proof.
  intros Hsub. rewrite !elem_of_candidates.
  intros (s & co & i & ? & ? & ? & ?). exists s, co, i. split_and!; auto; tauto.
Qed.

(** The characteristic map after [resolve]. *)
Lemma resolved_lookup d om u c :
  BlueZDevice.characteristics (resolved d om) !! u = Some c
  ↔ BlueZDevice.characteristics d !! u = Some c
    ∨ (BlueZDevice.characteristics d !! u = None
       ∧ (list_to_map (candidates (BlueZDevice.objpath d) om)
            : gmap string BlueZCharacteristic.t) !! u = Some c).
Proof. apply lookup_union_Some_raw. Qed.

Lemma resolved_covers d om u c :
  (u, c) ∈ candidates (BlueZDevice.objpath d) om →
  is_Some (BlueZDevice.characteristics (resolved d om) !! u).
Proof.
  intros Hin. unfold resolved. simpl. rewrite lookup_union.
  destruct (BlueZDevice.characteristics d !! u) as [x|] eqn:Hd.
  - by destruct (list_to_map _ !! u).
  - destruct (list_to_map (candidates (BlueZDevice.objpath d) om) !! u)
      as [y|] eqn:Hl; [done|].
    apply not_elem_of_list_to_map in Hl. destruct Hl.
    apply list_elem_of_fmap. by exists (u, c).
Qed.

(** The constructor: whether it returns depends on the object alone, and
    the device it returns is the one built without any object around,
    resolved. *)
Lemma device_init_spec om obj :
  BlueZDevice.__init__ om obj = d ← BlueZDevice.__init__ [] obj; Ok (resolved d om).
Proof.
  unfold BlueZDevice.__init__.
  destruct (ORG_BLUEZ_DEVICE1 obj) as [i|]; simpl; [|done].
  destruct (Address i); simpl; [|done]. destruct (Name i); simpl; [|done].
  destruct (match ManufacturerData i with
            | Some md => BlueZDevice.first_key md | None => Ok 0 end); simpl; [|done].
  destruct (UUIDs i); simpl; [|done].
  by rewrite resolve_spec.
Qed.

Lemma device_init_empty obj d :
  BlueZDevice.__init__ [] obj = Ok d →
  BlueZDevice.objpath d = get_object_path obj ∧ BlueZDevice.characteristics d = ∅.
Proof.
  unfold BlueZDevice.__init__.
  destruct (ORG_BLUEZ_DEVICE1 obj) as [i|]; simpl; [|done].
  destruct (Address i); simpl; [|done]. destruct (Name i); simpl; [|done].
  destruct (match ManufacturerData i with
            | Some md => BlueZDevice.first_key md | None => Ok 0 end); simpl; [|done].
  destruct (UUIDs i); simpl; [|done].
  by intros [= <-].
Qed.

Lemma resolve_all om ds : ∀ acc,
  for_each (λ done d, d ← BlueZDevice.resolve d om; Ok (done ++ [d])) ds acc
  = Ok (acc ++ ((λ d, resolved d om) <$> ds)).
Proof.
  induction ds as [|d ds IH]; intros acc; [by rewrite app_nil_r|].
  rewrite for_each_cons, resolve_spec, !bind_Ok, IH. simpl.
  by rewrite <-(assoc_L (++)).
Qed.

Lemma object_added_om self obj :
  BlueZDeviceManager._om (BlueZDeviceManager.object_added self obj)
  = BlueZDeviceManager._om self ++ [obj].
Proof.
  unfold BlueZDeviceManager.object_added, BlueZDeviceManager._on_om_object_added,
    BlueZDeviceManager._process_object, BlueZDeviceManager._process_device.
  cbn zeta. repeat case_decide; simpl; try done.
  - by destruct (BlueZDevice.__init__ _ obj).
  - by rewrite resolve_all.
Qed.

(** The devices after an announcement, by the kind of the object. *)
Lemma object_added_devices self obj :
  BlueZDeviceManager.devices (BlueZDeviceManager.object_added self obj)
  = let om := BlueZDeviceManager._om self ++ [obj] in
    if decide (is_Some (ORG_BLUEZ_ADAPTER1 obj)) then BlueZDeviceManager.devices self
    else if decide (is_Some (ORG_BLUEZ_DEVICE1 obj)) then
      match BlueZDevice.__init__ [] obj with
      | Ok d => BlueZDeviceManager.devices self ++ [resolved d om]
      | Raise _ => BlueZDeviceManager.devices self
      end
    else if decide (is_Some (ORG_BLUEZ_GATTCHARACTERISTIC1 obj)) then
      (λ d, resolved d om) <$> BlueZDeviceManager.devices self
    else BlueZDeviceManager.devices self.
Proof.
  unfold BlueZDeviceManager.object_added, BlueZDeviceManager._on_om_object_added,
    BlueZDeviceManager._process_object, BlueZDeviceManager._process_device.
  cbn zeta. repeat case_decide; simpl; try done.
  - rewrite device_init_spec. by destruct (BlueZDevice.__init__ [] obj).
  - by rewrite resolve_all.
Qed.

Lemma deliver_snoc objs obj :
  BlueZDeviceManager.deliver (objs ++ [obj])
  = BlueZDeviceManager.object_added (BlueZDeviceManager.deliver objs) obj.
Proof. unfold BlueZDeviceManager.deliver. by rewrite foldl_snoc. Qed.


Lemma announced_device_path obj d :
  announced_device obj = Some d → BlueZDevice.objpath d = get_object_path obj.
Proof.
  unfold announced_device. repeat case_decide; try done.
  destruct (BlueZDevice.__init__ [] obj) as [d'|] eqn:Hinit; [|done].
  intros [= <-]. by apply device_init_empty in Hinit as [? _].
Qed.

Lemma announced_device_characteristics obj d :
  announced_device obj = Some d → BlueZDevice.characteristics d = ∅.
Proof.
  unfold announced_device. repeat case_decide; try done.
  destruct (BlueZDevice.__init__ [] obj) as [d'|] eqn:Hinit; [|done].
  intros [= <-]. by apply device_init_empty in Hinit as [_ ?].
Qed.

(** The devices after an announcement, in terms of [announced_device]. *)
Lemma object_added_devices' self obj :
  BlueZDeviceManager.devices (BlueZDeviceManager.object_added self obj)
  = let om := BlueZDeviceManager._om self ++ [obj] in
    match announced_device obj with
    | Some d => BlueZDeviceManager.devices self ++ [resolved d om]
    | None =>
        if plain_characteristic obj
           && bool_decide (is_Some (ORG_BLUEZ_GATTCHARACTERISTIC1 obj))
        then (λ d, resolved d om) <$> BlueZDeviceManager.devices self
        else BlueZDeviceManager.devices self
    end.
Proof.
  rewrite object_added_devices. unfold announced_device, plain_characteristic. cbn zeta.
  destruct (ORG_BLUEZ_ADAPTER1 obj) as [[]|] eqn:Ha;
    destruct (ORG_BLUEZ_DEVICE1 obj) as [i|] eqn:Hd;
    destruct (ORG_BLUEZ_GATTCHARACTERISTIC1 obj) as [j|] eqn:Hc;
    repeat case_decide;
    repeat match goal with H : is_Some None |- _ => by destruct H end;
    repeat match goal with H : ¬ is_Some (Some _) |- _ => by destruct H end;
    try done; by destruct (BlueZDevice.__init__ [] obj).
Qed.






Lemma NoDup_fst_functional {V} (l : list (string * V)) u c c' :
  NoDup l.*1 → (u, c) ∈ l → (u, c') ∈ l → c = c'.
Proof.
  intros Hnodup Hc Hc'.
  apply (elem_of_list_to_map_1 (M := gmap string) l u c Hnodup) in Hc.
  apply (elem_of_list_to_map_1 (M := gmap string) l u c' Hnodup) in Hc'.
  congruence.
Qed.

Lemma uuids_distinct_at objs objs' p u c c' :
  uuids_distinct objs → objs ≡ₚ objs' →
  p ∈ get_object_path <$> objs' →
  (u, c) ∈ candidates p objs' → (u, c') ∈ candidates p objs' → c = c'.
Proof.
  intros Hdistinct Hperm (dev & -> & Hdev)%list_elem_of_fmap Hc Hc'.
  rewrite <-Hperm in Hdev.
  assert (Hsub : objs' ⊆ objs) by (intros x; by rewrite Hperm).
  unfold uuids_distinct in Hdistinct. rewrite Forall_forall in Hdistinct.
  eapply NoDup_fst_functional; [by apply (Hdistinct dev)| |];
    eapply candidates_mono; eauto.
Qed.









End manager.

(** ** The orchestrator and its device sessions *)

Section orchestrator.

Context (W : WacomDriver).

Implicit Types (self : Tuhi.t W) (session : TuhiDevice.t W).
Implicit Types (bluez_device : BlueZDevice.t) (events : list BlueZDevice.t).

(** C4: the pairing-mode query answers true exactly when the
    advertisement carries a payload for the Wacom company id and that
    payload is 4 bytes long; in particular it answers false when there is
    no manufacturer data, or none for that vendor.  The answer is also
    what it stores in the D-Bus device. *)
Theorem pairingmode_detection (session : TuhiDevice.t W) :
  let '(session', answer) := TuhiDevice.pairingmode W session in
  (answer = true
   ↔ ∃ payload,
       manufacturer_payload (TuhiDevice._bluez_device W session) WACOM_COMPANY_ID
         = Some payload
       ∧ length payload = 4%nat)
  ∧ (manufacturer_payload (TuhiDevice._bluez_device W session) WACOM_COMPANY_ID = None
     → answer = false)
  ∧ session'
    = TuhiDevice.set_tuhi_dbus_device W session
        (TuhiDBusDevice.set_pairingmode (TuhiDevice._tuhi_dbus_device W session) answer).
Proof.
  unfold TuhiDevice.pairingmode, get_manufacturer_data. cbn zeta.
  split_and!; [|by intros ->|done].
  rewrite bool_decide_eq_true.
  destruct (manufacturer_payload _ _) as [payload|]; simpl.
  - split; [by exists payload|]. by intros (? & [= <-] & ?).
  - split; [done|]. by intros (? & ? & ?).
Qed.

(** C6: when the connected signal arrives and the driver is not working,
    exactly one call goes to the driver: [start_pairing] when pairing was
    requested, and the request is then cleared, [start] otherwise; when
    the driver is working, nothing is called and the session stays as it
    is. *)
Theorem connected_entry_decision (session : TuhiDevice.t W) :
  let session' := TuhiDevice._on_bluez_device_connected W session in
  TuhiDevice._tuhi_dbus_device W session' = TuhiDevice._tuhi_dbus_device W session
  ∧ TuhiDevice._bluez_device W session' = TuhiDevice._bluez_device W session
  ∧ TuhiDevice.drawings W session' = TuhiDevice.drawings W session
  ∧ if working W (TuhiDevice._wacom_device W session) then session' = session
    else if TuhiDevice.pairing W session then
      TuhiDevice.calls W session'
        = TuhiDevice.calls W session ++ [TuhiDevice.wacom_start_pairing]
      ∧ TuhiDevice._wacom_device W session'
        = start_pairing W (TuhiDevice._wacom_device W session)
      ∧ TuhiDevice.pairing W session' = false
    else
      TuhiDevice.calls W session' = TuhiDevice.calls W session ++ [TuhiDevice.wacom_start]
      ∧ TuhiDevice._wacom_device W session' = start W (TuhiDevice._wacom_device W session)
      ∧ TuhiDevice.pairing W session' = false.
Proof.
  unfold TuhiDevice._on_bluez_device_connected. cbn zeta.
  destruct (working W (TuhiDevice._wacom_device W session)); [done|].
  by destruct (TuhiDevice.pairing W session) eqn:Hp.
Qed.

Lemma get_tuhi_device_known self bluez_device session :
  Tuhi.devices W self !! BlueZDevice.address bluez_device = Some session →
  Tuhi.get_tuhi_device W self bluez_device = (self, session).
Proof. intros Hd. unfold Tuhi.get_tuhi_device. by rewrite Hd. Qed.

Lemma get_tuhi_device_new self bluez_device :
  Tuhi.devices W self !! BlueZDevice.address bluez_device = None →
  let session :=
    TuhiDevice.__init__ W bluez_device
      (TuhiDBusServer.create_device (Tuhi.server W self) bluez_device).2 in
  Tuhi.get_tuhi_device W self bluez_device
  = ({| Tuhi.server :=
          {| TuhiDBusServer.created :=
               TuhiDBusServer.created (Tuhi.server W self) ++ [bluez_device] |};
        Tuhi.devices :=
          <[BlueZDevice.address bluez_device := session]> (Tuhi.devices W self) |},
     session).
Proof. intros Hd. unfold Tuhi.get_tuhi_device. by rewrite Hd. Qed.

Lemma get_tuhi_device_invariant self bluez_device :
  one_session_each W self →
  one_session_each W (Tuhi.get_tuhi_device W self bluez_device).1
  ∧ Tuhi.devices W self ⊆ Tuhi.devices W (Tuhi.get_tuhi_device W self bluez_device).1
  ∧ dom (Tuhi.devices W (Tuhi.get_tuhi_device W self bluez_device).1)
    =@{gset string} dom (Tuhi.devices W self) ∪ {[ BlueZDevice.address bluez_device ]}.
Proof.
  intros [Hnodup Hdom].
  destruct (Tuhi.devices W self !! BlueZDevice.address bluez_device) as [d|] eqn:Hd.
  - rewrite (get_tuhi_device_known _ _ _ Hd). simpl. split_and!; [done..|].
    apply elem_of_dom_2 in Hd. set_solver.
  - rewrite (get_tuhi_device_new _ _ Hd). simpl. split_and!.
    + split; simpl.
      * rewrite fmap_app. apply NoDup_app. split_and!; [done| |apply NoDup_singleton].
        intros a Ha ->%list_elem_of_singleton.
        apply not_elem_of_dom in Hd. rewrite Hdom in Hd.
        by apply Hd, elem_of_list_to_set.
      * rewrite dom_insert_L, fmap_app, list_to_set_app_L, Hdom. simpl. set_solver.
    + by apply insert_subseteq.
    + rewrite dom_insert_L. set_solver.
Qed.

Lemma sessions_snoc events bluez_device :
  sessions W (events ++ [bluez_device])
  = (Tuhi.get_tuhi_device W (sessions W events) bluez_device).1.
Proof. unfold sessions. by rewrite foldl_snoc. Qed.

Lemma sessions_invariant events :
  one_session_each W (sessions W events)
  ∧ dom (Tuhi.devices W (sessions W events))
    =@{gset string} list_to_set (BlueZDevice.address <$> events).
Proof.
  induction events as [|bluez_device events [IH Hdom]] using rev_ind.
  - split; [|set_solver]. split; [constructor|set_solver].
  - rewrite sessions_snoc.
    destruct (get_tuhi_device_invariant (sessions W events) bluez_device IH)
      as (Hinv & _ & Hdom').
    split; [done|]. rewrite Hdom', Hdom, fmap_app, list_to_set_app_L. simpl. set_solver.
Qed.

Lemma sessions_kept events events' :
  Tuhi.devices W (sessions W events) ⊆ Tuhi.devices W (sessions W (events ++ events')).
Proof.
  induction events' as [|bluez_device events' IH] using rev_ind.
  - by rewrite app_nil_r.
  - rewrite (assoc_L (++)), sessions_snoc. etrans; [done|].
    apply get_tuhi_device_invariant, sessions_invariant.
Qed.

(** C5: looking up the session of a device returns the session that the
    orchestrator holds for the address of the device, and leaves the
    orchestrator as it is, or else creates one, with one call of
    [create_device], and stores it under the address.  Over any sequence
    of device events, [create_device] is called once per address, the
    sessions are those of the addresses seen, as many as the calls, and a
    session once created stays the session of its address.  At the
    transport, the manager emits one device-added signal for each device
    it constructs. *)
Theorem one_session_per_address
    (self : Tuhi.t W) (bluez_device : BlueZDevice.t) (events events' : list BlueZDevice.t)
    (manager : BlueZDeviceManager.t) (obj : DBusObject) :
  match Tuhi.devices W self !! BlueZDevice.address bluez_device with
  | Some session => Tuhi.get_tuhi_device W self bluez_device = (self, session)
  | None =>
      ∃ self' session,
        Tuhi.get_tuhi_device W self bluez_device = (self', session)
        ∧ session
          = TuhiDevice.__init__ W bluez_device
              (TuhiDBusServer.create_device (Tuhi.server W self) bluez_device).2
        ∧ Tuhi.devices W self'
          = <[BlueZDevice.address bluez_device := session]> (Tuhi.devices W self)
        ∧ TuhiDBusServer.created (Tuhi.server W self')
          = TuhiDBusServer.created (Tuhi.server W self) ++ [bluez_device]
  end
  ∧ NoDup (BlueZDevice.address
             <$> TuhiDBusServer.created (Tuhi.server W (sessions W events)))
  ∧ dom (Tuhi.devices W (sessions W events))
    =@{gset string} list_to_set (BlueZDevice.address <$> events)
  ∧ size (Tuhi.devices W (sessions W events))
    = length (TuhiDBusServer.created (Tuhi.server W (sessions W events)))
  ∧ Tuhi.devices W (sessions W events) ⊆ Tuhi.devices W (sessions W (events ++ events'))
  ∧ match BlueZDeviceManager._process_device manager obj with
    | Ok manager' =>
        ∃ dev, BlueZDevice.__init__ (BlueZDeviceManager._om manager) obj = Ok dev
               ∧ BlueZDeviceManager.devices manager'
                 = BlueZDeviceManager.devices manager ++ [dev]
               ∧ BlueZDeviceManager.emitted manager'
                 = BlueZDeviceManager.emitted manager
                   ++ [BlueZDeviceManager.device_added dev]
    | Raise e => BlueZDevice.__init__ (BlueZDeviceManager._om manager) obj = Raise e
    end.
Proof.
  destruct (sessions_invariant events) as [[Hnodup Hcreated] Hdom].
  split_and!.
  - destruct (Tuhi.devices W self !! BlueZDevice.address bluez_device) as [d|] eqn:Hd.
    + by apply get_tuhi_device_known.
    + eexists _, _. by rewrite (get_tuhi_device_new _ _ Hd).
  - done.
  - done.
  - rewrite <-size_dom, Hcreated, size_list_to_set by done. by rewrite length_fmap.
  - apply sessions_kept.
  - unfold BlueZDeviceManager._process_device.
    destruct (BlueZDevice.__init__ _ obj) as [dev|e]; simpl; [by exists dev|done].
Qed.

(** C10: a device constructed from an object without manufacturer data
    has vendor identifier 0, and the orchestrator ignores the update of
    that device, as of any device whose vendor identifier is not the Wacom
    company id: no session is created, [create_device] is not called, and
    nothing is asked of any session. *)
Theorem vendor_filtering
    (self : Tuhi.t W) (om : list DBusObject) (obj : DBusObject) (i : Device1)
    (d : BlueZDevice.t) :
  ORG_BLUEZ_DEVICE1 obj = Some i →
  ManufacturerData i = None →
  BlueZDevice.__init__ om obj = Ok d →
  BlueZDevice.vendor_id d = 0
  ∧ Tuhi._on_bluez_device_updated W self d = self
  ∧ ∀ bluez_device,
      BlueZDevice.vendor_id bluez_device ≠ WACOM_COMPANY_ID →
      Tuhi._on_bluez_device_updated W self bluez_device = self.
Proof.
  intros Hi Hmd Hinit.
  assert (Hvendor : BlueZDevice.vendor_id d = 0).
  { revert Hinit. rewrite device_init_spec. unfold BlueZDevice.__init__.
    rewrite Hi. simpl. destruct (Address i); simpl; [|done].
    destruct (Name i); simpl; [|done]. rewrite Hmd. simpl.
    destruct (UUIDs i); simpl; [|done]. by intros [= <-]. }
  assert (Hignore : ∀ bluez_device,
            BlueZDevice.vendor_id bluez_device ≠ WACOM_COMPANY_ID →
            Tuhi._on_bluez_device_updated W self bluez_device = self).
  { intros bluez_device Hne. unfold Tuhi._on_bluez_device_updated.
    by rewrite decide_True. }
  split_and!; [done| |done]. apply Hignore. by rewrite Hvendor.
Qed.

End orchestrator.

(** ** Instances of the theorems on the example objects *)


(** A device with a characteristic under "u1", asked for "u2". *)
Lemma connect_gatt_value_unknown_witness :
  BlueZDevice.connect_gatt_value
    (resolved example_device [dev_obj; svc1; chr_a]) "u2" 7%nat
  = Ok (resolved example_device [dev_obj; svc1; chr_a]).
Proof. apply connect_gatt_value_unknown. vm_compute. reflexivity. Defined.

(** A drawing whose second stroke opens with a relative point. *)
Lemma decoder_needs_absolute_first_witness :
  TuhiDevice.stroke_body empty_drawing relative_first_stroke = Raise TypeError
  ∧ TuhiDevice._on_drawing_received example_driver example_session "pad"
      {| Drawing.timestamp := 0; Drawing.strokes := [example_stroke; relative_first_stroke] |}
    = Raise TypeError.
Proof.
  apply (decoder_needs_absolute_first example_driver example_session "pad"
           {| Drawing.timestamp := 0;
              Drawing.strokes := [example_stroke; relative_first_stroke] |}
           empty_drawing relative_first_stroke chan_x).
  - right. left.
  - reflexivity.
Defined.


(** The example device, which advertises no manufacturer data. *)
Lemma vendor_filtering_witness :
  BlueZDevice.__init__ [] dev_obj = Ok example_device
  ∧ BlueZDevice.vendor_id example_device = 0
  ∧ Tuhi._on_bluez_device_updated example_driver (Tuhi.__init__ example_driver)
      example_device
    = Tuhi.__init__ example_driver.
Proof.
  split; [reflexivity|].
  destruct (vendor_filtering example_driver (Tuhi.__init__ example_driver) [] dev_obj
              {| Address := Some "E2:43:03:67:0E:01"; Name := Some "pad";
                 UUIDs := Some []; ManufacturerData := None; Connected := false |}
              example_device eq_refl eq_refl eq_refl) as (Hv & Hu & _).
  by split.
Defined.


(** ** Further runs on the example objects *)

Example held_example_stroke :
  held example_stroke
  = [ (Some 10, Some 20, Some 5); (Some 13, Some 18, Some 5); (None, Some 23, None) ].
Proof. reflexivity. Qed.

Example stroke_record_pressure_only :
  stroke_record pressure_only_stroke
  = PyDict [("points",
             PyList [PyDict [("position", PyTuple [PyNone; PyNone]);
                             ("pressure", PyInt 5)]])]%string.
Proof. reflexivity. Qed.

Example pairingmode_four_bytes :
  (TuhiDevice.pairingmode example_driver (session_of (advertising [1; 2; 3; 4]))).2 = true.
Proof. reflexivity. Qed.

Example pairingmode_no_byte :
  (TuhiDevice.pairingmode example_driver (session_of (advertising []))).2 = false.
Proof. reflexivity. Qed.

Example pairingmode_six_bytes :
  (TuhiDevice.pairingmode example_driver
     (session_of (advertising [1; 2; 3; 4; 5; 6]))).2 = false.
Proof. reflexivity. Qed.

Example pairingmode_no_data :
  (TuhiDevice.pairingmode example_driver example_session).2 = false.
Proof. reflexivity. Qed.

(** A known UUID gets its callback and one [StartNotify]. *)
Example connect_gatt_value_known :
  (d ← BlueZDevice.connect_gatt_value
         (resolved example_device [dev_obj; svc1; chr_a]) "u1" 7%nat;
   Ok (BlueZDevice.characteristics d !! "u1"%string))
  = Ok (Some {| BlueZCharacteristic.obj := chr_a;
                BlueZCharacteristic.objpath := "/dev/svc1/a";
                BlueZCharacteristic.interface := {| Service := "/dev/svc1"; UUID := "u1" |};
                BlueZCharacteristic.uuid := "u1";
                BlueZCharacteristic._property_callbacks := {[ "Value"%string := 7%nat ]};
                BlueZCharacteristic.StartNotify_calls := 1 |}).
Proof. vm_compute. reflexivity. Qed.

(** Two updates of a Wacom device in normal mode: one session, one call of
    [create_device], and a connection asked for at each update. *)
Example two_updates_one_session :
  let self :=
    foldl (Tuhi._on_bluez_device_updated example_driver) (Tuhi.__init__ example_driver)
          [advertising [1; 2]; advertising [1; 2]] in
  length (TuhiDBusServer.created (Tuhi.server example_driver self)) = 1%nat
  ∧ size (Tuhi.devices example_driver self) = 1%nat
  ∧ TuhiDevice.calls example_driver
      <$> Tuhi.devices example_driver self !! "E2:43:03:67:0E:01"%string
    = Some [TuhiDevice.bluez_Connect; TuhiDevice.bluez_Connect].
Proof. vm_compute. done. Qed.

(** The connected signal: pairing when it was requested, retrieval
    otherwise, nothing while the driver works. *)
Example connected_after_pairing_request :
  let session :=
    TuhiDevice._on_bluez_device_connected example_driver
      (TuhiDevice.set_pairing example_driver example_session true) in
  TuhiDevice.calls example_driver session = [TuhiDevice.wacom_start_pairing]
  ∧ TuhiDevice.pairing example_driver session = false
  ∧ TuhiDevice._on_bluez_device_connected example_driver session = session.
Proof. done. Qed.

(** * Further properties *)

(** ** The drawing decoder: when it returns, and what *)

Section decoder_more.

Lemma channel_Ok type x lastx :
  (∃ r, TuhiDevice.channel type x lastx = Ok r)
  ↔ (is_Some x → type = Stroke.RELATIVE → is_Some lastx).
Proof.
  destruct x as [x|], type, lastx as [l|]; simpl; split;
    try (intros _; eauto; fail); try (intros _ _ _; eauto; fail).
  - by intros _ _ [=].
  - by intros [r [=]].
  - intros H. by destruct (H (mk_is_Some _ _ eq_refl) eq_refl) as [? [=]].
Qed.

Lemma Is_true_implb (a b : bool) : implb a b ↔ (a → b).
Proof. by destruct a, b; simpl; split; auto. Qed.

(** The loop body returns exactly on a point that follows the running
    values. *)
Lemma point_body_returns st prev pt :
  (∀ c, is_Some (running c st) ↔ has_value c prev) →
  (∃ st', TuhiDevice.point_body st pt = Ok st') ↔ follows prev pt.
Proof.
  destruct st as [[[stroke lastx] lasty] lastp], pt as [[[type x] y] p].
  intros Hrun. pose proof (Hrun chan_x) as Hx. pose proof (Hrun chan_y) as Hy.
  pose proof (Hrun chan_p) as Hp. simpl in Hx, Hy, Hp.
  unfold follows, TuhiDevice.point_body. simpl encoding_of. simpl forallb.
  pose proof (channel_Ok type x lastx) as Cx.
  pose proof (channel_Ok type y lasty) as Cy.
  pose proof (channel_Ok type p lastp) as Cp.
  destruct type.
  - split; [done|]. intros _.
    destruct Cx as [_ [[??] ->]]; [done|]. rewrite bind_Ok.
    destruct Cy as [_ [[??] ->]]; [done|]. rewrite bind_Ok.
    destruct Cp as [_ [[??] ->]]; [done|]. rewrite bind_Ok. eauto.
  - rewrite !andb_True, !Is_true_implb. unfold has_value.
    rewrite !bool_decide_spec, <-Hx, <-Hy, <-Hp. simpl. split.
    + intros [st' Hst'].
      destruct (TuhiDevice.channel _ x lastx) as [[??]|]; [|done].
      destruct (TuhiDevice.channel _ y lasty) as [[??]|]; [|done].
      destruct (TuhiDevice.channel _ p lastp) as [[??]|]; [|done].
      split_and!; [|  |  |done]; intros ?.
      * apply Cx; eauto.
      * apply Cy; eauto.
      * apply Cp; eauto.
    + intros (Hfx & Hfy & Hfp & _).
      destruct Cx as [_ [[??] ->]]; [by intros ? _; apply Hfx|]. rewrite bind_Ok.
      destruct Cy as [_ [[??] ->]]; [by intros ? _; apply Hfy|]. rewrite bind_Ok.
      destruct Cp as [_ [[??] ->]]; [by intros ? _; apply Hfp|]. rewrite bind_Ok.
      eauto.
Qed.

Lemma point_body_running st pt st' c :
  TuhiDevice.point_body st pt = Ok st' →
  is_Some (running c st') ↔ has_value c (Some pt).
Proof.
  destruct st as [[[stroke lastx] lasty] lastp]. intros Hok.
  destruct (point_body_Ok _ _ _ _ _ _ Hok) as (x & y & p & -> & Hx & Hy & Hp).
  unfold has_value. rewrite bool_decide_spec. by destruct c.
Qed.

Lemma points_return pts : ∀ st prev,
  (∀ c, is_Some (running c st) ↔ has_value c prev) →
  (∃ st', for_each TuhiDevice.point_body pts st = Ok st') ↔ well_chained prev pts.
Proof.
  induction pts as [|pt pts IH]; intros st prev Hrun.
  - simpl. split; [done|]. eauto.
  - rewrite for_each_cons. simpl well_chained. rewrite andb_True.
    rewrite <-(point_body_returns st prev pt Hrun).
    destruct (TuhiDevice.point_body st pt) as [st1|e] eqn:Hbody.
    + rewrite bind_Ok. rewrite (IH st1 (Some pt)).
      * split; [by eauto|]. by intros [_ ?].
      * intros c. by apply (point_body_running st pt st1 c).
    + rewrite bind_Raise. split; [by intros [??]|]. by intros [[??] _].
Qed.

Lemma stroke_body_returns d s :
  (∃ d', TuhiDevice.stroke_body d s = Ok d') ↔ well_chained None (Stroke.points s).
Proof.
  rewrite <-(points_return (Stroke.points s) (TuhiDrawing.Stroke.__init__, None, None, None)).
  - unfold TuhiDevice.stroke_body.
    destruct (for_each _ _ _) as [[[[??]?]?]|]; [rewrite bind_Ok|rewrite bind_Raise].
    + split; eauto.
    + split; by intros [??].
  - intros c. destruct c; simpl; split; try done; by intros [??].
Qed.

Lemma strokes_return strokes : ∀ d,
  (∃ d', for_each TuhiDevice.stroke_body strokes d = Ok d')
  ↔ Forall (λ s, well_chained None (Stroke.points s)) strokes.
Proof.
  induction strokes as [|s strokes IH]; intros d.
  - split; [by constructor|]. simpl. eauto.
  - rewrite for_each_cons, Forall_cons, <-(stroke_body_returns d s).
    destruct (TuhiDevice.stroke_body d s) as [d1|e].
    + rewrite bind_Ok, (IH d1). split; [by eauto|]. by intros [_ ?].
    + rewrite bind_Raise. split; [by intros [??]|]. by intros [[??] _].
Qed.

(** X1: the decoder returns for a stroke exactly when every relative
    point of the stroke carries values only on channels on which the point
    just before it in the stroke has a value; it returns for a drawing
    exactly when this holds of every stroke, each stroke starting anew;
    and the only exception it raises is [TypeError]. *)
Theorem decoder_returns_iff_chained
    (W : WacomDriver) (self : TuhiDevice.t W) (device_name : string)
    (drawing : Drawing.t) (d : TuhiDrawing.t) (s : Stroke.t) :
  ((∃ d', TuhiDevice.stroke_body d s = Ok d') ↔ well_chained None (Stroke.points s))
  ∧ ((∃ self', TuhiDevice._on_drawing_received W self device_name drawing = Ok self')
     ↔ Forall (λ s, well_chained None (Stroke.points s)) (Drawing.strokes drawing))
  ∧ ∀ e, TuhiDevice._on_drawing_received W self device_name drawing = Raise e →
         e = TypeError.
Proof.
  split; [apply stroke_body_returns|].
  unfold TuhiDevice._on_drawing_received. cbn zeta.
  rewrite <-(strokes_return (Drawing.strokes drawing)
               (TuhiDrawing.__init__ device_name (0, 0) (Drawing.timestamp drawing))).
  destruct (for_each _ _ _) as [d1|e1] eqn:Hrun; [rewrite bind_Ok|rewrite bind_Raise].
  - split; [split; eauto|done].
  - split; [split; by intros [??]|]. intros e [= <-]. clear -Hrun.
    revert Hrun. generalize (TuhiDrawing.__init__ device_name (0, 0)
                               (Drawing.timestamp drawing)).
    induction (Drawing.strokes drawing) as [|s' strokes IH]; intros d0; [done|].
    rewrite for_each_cons.
    destruct (TuhiDevice.stroke_body d0 s') as [d1|e] eqn:Hbody.
    + rewrite bind_Ok. apply IH.
    + rewrite bind_Raise. intros [= <-]. by apply (stroke_body_raises d0 s').
Qed.

Lemma points_absolute pts : ∀ stroke lastx lasty lastp,
  Forall (λ pt, encoding_of pt = Stroke.ABSOLUTE) pts →
  ∃ lx ly lp,
    for_each TuhiDevice.point_body pts (stroke, lastx, lasty, lastp)
    = Ok ({| TuhiDrawing.Stroke.points :=
               TuhiDrawing.Stroke.points stroke ++ (verbatim <$> pts) |}, lx, ly, lp).
Proof.
  induction pts as [|[[[type x] y] p] pts IH]; intros stroke lastx lasty lastp Habs.
  - exists lastx, lasty, lastp. simpl. rewrite app_nil_r. by destruct stroke.
  - apply Forall_cons in Habs as [Htype Habs]. simpl in Htype. subst type.
    rewrite for_each_cons.
    assert (TuhiDevice.point_body (stroke, lastx, lasty, lastp) (Stroke.ABSOLUTE, x, y, p)
            = Ok ({| TuhiDrawing.Stroke.points :=
                       TuhiDrawing.Stroke.points stroke ++ [decoded_point x y p] |},
                  x, y, p)) as ->.
    { by destruct x, y, p. }
    rewrite bind_Ok.
    destruct (IH {| TuhiDrawing.Stroke.points :=
                      TuhiDrawing.Stroke.points stroke ++ [decoded_point x y p] |}
                 x y p Habs) as (lx & ly & lp & ->).
    exists lx, ly, lp. simpl. by rewrite <-(assoc_L (++)).
Qed.

(** X2: a stroke of absolute points only is decoded point by point to the
    raw values as they are, absent values included, and appended to the
    drawing; the decoder does not raise. *)
Theorem absolute_points_verbatim (d : TuhiDrawing.t) (s : Stroke.t) :
  Forall (λ pt, encoding_of pt = Stroke.ABSOLUTE) (Stroke.points s) →
  TuhiDevice.stroke_body d s = Ok (add_stroke d (verbatim <$> Stroke.points s)).
Proof.
  intros Habs. unfold TuhiDevice.stroke_body.
  destruct (points_absolute (Stroke.points s) TuhiDrawing.Stroke.__init__ None None None Habs)
    as (lx & ly & lp & ->).
  by rewrite bind_Ok.
Qed.

Lemma summed_points_cons x y p dx dy dp offsets :
  summed_points x y p ((dx, dy, dp) :: offsets)
  = decoded_point (Some (dx + x)) (Some (dy + y)) (Some (dp + p))
    :: summed_points (dx + x) (dy + y) (dp + p) offsets.
Proof.
  unfold summed_points. rewrite imap_cons. f_equal.
  - f_equal; f_equal; unfold sum_Z; csimpl; lia.
  - apply imap_ext. intros i o _. csimpl. f_equal; f_equal; unfold sum_Z; csimpl; lia.
Qed.

Lemma points_offsets offsets : ∀ stroke x y p,
  ∃ lx ly lp,
    for_each TuhiDevice.point_body
      ((λ '(dx, dy, dp), (Stroke.RELATIVE, Some dx, Some dy, Some dp)) <$> offsets)
      (stroke, Some x, Some y, Some p)
    = Ok ({| TuhiDrawing.Stroke.points :=
               TuhiDrawing.Stroke.points stroke ++ summed_points x y p offsets |},
          lx, ly, lp).
Proof.
  induction offsets as [|[[dx dy] dp] offsets IH]; intros stroke x y p.
  - exists (Some x), (Some y), (Some p). simpl. rewrite app_nil_r. by destruct stroke.
  - rewrite fmap_cons, for_each_cons, summed_points_cons.
    change (TuhiDevice.point_body (stroke, Some x, Some y, Some p)
              (Stroke.RELATIVE, Some dx, Some dy, Some dp))
      with (Ok ({| TuhiDrawing.Stroke.points :=
                     TuhiDrawing.Stroke.points stroke
                     ++ [decoded_point (Some (dx + x)) (Some (dy + y)) (Some (dp + p))] |},
                Some (dx + x), Some (dy + y), Some (dp + p))).
    rewrite bind_Ok.
    destruct (IH {| TuhiDrawing.Stroke.points :=
                      TuhiDrawing.Stroke.points stroke
                      ++ [decoded_point (Some (dx + x)) (Some (dy + y)) (Some (dp + p))] |}
                 (dx + x) (dy + y) (dp + p)) as (lx & ly & lp & ->).
    exists lx, ly, lp. simpl. by rewrite <-(assoc_L (++)).
Qed.

(** X3: a stroke that opens with an absolute point and goes on with
    relative points, all with all three values, is decoded to the first
    point followed, for each relative point, by the first point plus the
    sum of the offsets up to that point, on each channel. *)
Theorem relative_points_summed
    (d : TuhiDrawing.t) (x0 y0 p0 : Z) (offsets : list (Z * Z * Z)) :
  TuhiDevice.stroke_body d (offsets_stroke x0 y0 p0 offsets)
  = Ok (add_stroke d (decoded_point (Some x0) (Some y0) (Some p0)
                      :: summed_points x0 y0 p0 offsets)).
Proof.
  unfold TuhiDevice.stroke_body, offsets_stroke. cbn [Stroke.points].
  rewrite for_each_cons.
  change (TuhiDevice.point_body (TuhiDrawing.Stroke.__init__, None, None, None)
            (Stroke.ABSOLUTE, Some x0, Some y0, Some p0))
    with (Ok ({| TuhiDrawing.Stroke.points :=
                   [decoded_point (Some x0) (Some y0) (Some p0)] |},
              Some x0, Some y0, Some p0)).
  rewrite bind_Ok.
  destruct (points_offsets offsets
              {| TuhiDrawing.Stroke.points :=
                   [decoded_point (Some x0) (Some y0) (Some p0)] |} x0 y0 p0)
    as (lx & ly & lp & ->).
  by rewrite bind_Ok.
Qed.

End decoder_more.

(** A stroke of absolute points, some without position or pressure. *)
Lemma absolute_points_verbatim_witness :
  TuhiDevice.stroke_body empty_drawing absolute_stroke
  = Ok (add_stroke empty_drawing
          [ decoded_point (Some 10) (Some 20) None;
            decoded_point None None (Some 5);
            decoded_point (Some 12) None (Some 6) ]).
Proof. apply (absolute_points_verbatim empty_drawing absolute_stroke). by repeat constructor. Defined.

(** ** Characteristics: callbacks and notifications *)

Section characteristics_more.

Implicit Types (self : BlueZCharacteristic.t) (d : BlueZDevice.t).

Lemma properties_changed_dispatched {V} self (properties : list (string * V)) :
  BlueZCharacteristic._on_properties_changed self properties
  = dispatched (BlueZCharacteristic._property_callbacks self) properties.
Proof.
  unfold BlueZCharacteristic._on_properties_changed, dispatched.
  assert (∀ acc : list (Callback * string * V),
            foldl (λ calls '(name, value),
                     match BlueZCharacteristic._property_callbacks self !! name with
                     | Some cb => calls ++ [(cb, name, value)]
                     | None => calls
                     end) acc properties
            = acc ++ omap (λ '(name, value),
                             (λ cb, (cb, name, value))
                               <$> BlueZCharacteristic._property_callbacks self !! name)
                          properties) as Hacc.
  { induction properties as [|[name value] properties IH]; intros acc.
    - by rewrite app_nil_r.
    - simpl. rewrite IH. destruct (_ !! name); simpl; [|done].
      by rewrite <-(assoc_L (++)). }
  apply (Hacc []).
Qed.

(** X4: after a callback is connected to a property, every change of that
    property in a batch runs that callback, whatever was connected to the
    property before; a change of another property runs the callback that
    property had, or nothing when it had none; the calls come in the order
    of the batch, and none is made twice. *)
Theorem connect_property_dispatch {V}
    (self : BlueZCharacteristic.t) (propname : string) (callback : Callback)
    (properties : list (string * V)) :
  BlueZCharacteristic._on_properties_changed
    (BlueZCharacteristic.connect_property self propname callback) properties
  = omap (λ '(name, value),
            if decide (name = propname) then Some (callback, name, value)
            else (λ cb, (cb, name, value))
                   <$> BlueZCharacteristic._property_callbacks self !! name)
         properties.
Proof.
  rewrite properties_changed_dispatched. unfold dispatched. simpl.
  induction properties as [|[name value] properties IH]; [done|].
  csimpl. rewrite IH. case_decide as Hname.
  - subst name. by rewrite lookup_insert_eq.
  - by rewrite lookup_insert_ne.
Qed.

(** X5: asking for the value changes of a UUID that the device has a
    characteristic for returns normally; in the device it returns, that
    characteristic has the callback under "Value" and one more
    [StartNotify] issued, a change of its value then runs the callback,
    and the device has the same UUIDs, with every other characteristic as
    it was. *)
Theorem connect_gatt_value_subscribes
    (d : BlueZDevice.t) (uuid : string) (callback : Callback)
    (chrc : BlueZCharacteristic.t) :
  BlueZDevice.characteristics d !! uuid = Some chrc →
  ∃ chrc',
    BlueZDevice.connect_gatt_value d uuid callback
    = Ok (BlueZDevice.set_characteristics d
            (<[uuid := chrc']> (BlueZDevice.characteristics d)))
    ∧ dom (<[uuid := chrc']> (BlueZDevice.characteristics d))
      =@{gset string} dom (BlueZDevice.characteristics d)
    ∧ BlueZCharacteristic._property_callbacks chrc'
      = <["Value"%string := callback]> (BlueZCharacteristic._property_callbacks chrc)
    ∧ BlueZCharacteristic.StartNotify_calls chrc'
      = S (BlueZCharacteristic.StartNotify_calls chrc)
    ∧ BlueZCharacteristic.obj chrc' = BlueZCharacteristic.obj chrc
    ∧ BlueZCharacteristic.uuid chrc' = BlueZCharacteristic.uuid chrc
    ∧ ∀ value : list Z,
        BlueZCharacteristic._on_properties_changed chrc' [("Value"%string, value)]
        = [(callback, "Value"%string, value)].
Proof.
  intros Hchrc.
  exists (BlueZCharacteristic.start_notify
            (BlueZCharacteristic.connect_property chrc "Value" callback)).
  split_and!; try done.
  - unfold BlueZDevice.connect_gatt_value, getitem. by rewrite Hchrc.
  - rewrite dom_insert_L. apply elem_of_dom_2 in Hchrc. set_solver.
  - intros value. rewrite properties_changed_dispatched. unfold dispatched. simpl.
    by rewrite lookup_insert_eq.
Qed.

End characteristics_more.

(** ** Devices: resolution and construction *)

Section devices_more.

Implicit Types (self d : BlueZDevice.t) (om : list DBusObject) (obj : DBusObject).

(** X6: [resolve] returns a device that differs from the given one in
    its characteristics and services only.  Its services are the service
    objects of [om] that name the device, in the order of [om], whatever
    services it had.  A characteristic that it has and the given device
    had not wraps a characteristic object of [om] whose service is one of
    those, and has no callback yet; and every such object has its UUID in
    the map.  A characteristic object whose service is not in [om], or
    belongs to another device, adds nothing and raises nothing. *)
Theorem resolve_ownership (self : BlueZDevice.t) (om : list DBusObject) :
  ∃ d,
    BlueZDevice.resolve self om = Ok d
    ∧ grown self d
    ∧ BlueZDevice.gatt_services d
      = filter (λ s, is_service_of_device (BlueZDevice.objpath self) s) om
    ∧ (∀ u c,
         BlueZDevice.characteristics d !! u = Some c →
         BlueZDevice.characteristics self !! u = Some c
         ∨ ∃ s co i,
             s ∈ BlueZDevice.gatt_services d
             ∧ co ∈ om
             ∧ ORG_BLUEZ_GATTCHARACTERISTIC1 co = Some i
             ∧ Service i = get_object_path s
             ∧ u = UUID i
             ∧ BlueZCharacteristic.obj c = co
             ∧ BlueZCharacteristic._property_callbacks c = ∅
             ∧ BlueZCharacteristic.StartNotify_calls c = 0%nat)
    ∧ ∀ s co i,
        s ∈ om → is_service_of_device (BlueZDevice.objpath self) s →
        co ∈ om → ORG_BLUEZ_GATTCHARACTERISTIC1 co = Some i →
        Service i = get_object_path s →
        is_Some (BlueZDevice.characteristics d !! UUID i).
Proof.
  exists (resolved self om). split_and!.
  - apply resolve_spec.
  - unfold grown. split_and!; try done. apply map_union_subseteq_l.
  - done.
  - intros u c [Hold|[_ Hnew]]%resolved_lookup; [by left|right].
    apply elem_of_list_to_map_2, elem_of_candidates in Hnew
      as (s & co & i & Hs & Hsd & Hco & Hi & Hsvc & -> & ->).
    exists s, co, i. split_and!; try done.
    simpl. unfold device_services. by apply list_elem_of_filter.
  - intros s co i Hs Hsd Hco Hi Hsvc.
    apply (resolved_covers self om (UUID i) (new_characteristic co i)).
    apply elem_of_candidates. by exists s, co, i.
Qed.

Lemma constructible_spec obj :
  constructible obj
  ↔ ∃ i a n us,
      ORG_BLUEZ_DEVICE1 obj = Some i ∧ Address i = Some a ∧ Name i = Some n
      ∧ UUIDs i = Some us ∧ ManufacturerData i ≠ Some [].
Proof.
  unfold constructible. destruct (ORG_BLUEZ_DEVICE1 obj) as [i|].
  - rewrite !andb_True, !bool_decide_spec. split.
    + intros [[[[a Ha] [n Hn]] [us Hus]] Hmd]. by exists i, a, n, us.
    + intros (? & a & n & us & [= <-] & Ha & Hn & Hus & Hmd).
      rewrite Ha, Hn, Hus. eauto.
  - split; [done|]. by intros (? & ? & ? & ? & ? & _).
Qed.

Lemma init_returns om obj :
  (∃ d, BlueZDevice.__init__ om obj = Ok d) ↔ constructible obj.
Proof.
  rewrite constructible_spec, (device_init_spec om). unfold BlueZDevice.__init__.
  destruct (ORG_BLUEZ_DEVICE1 obj) as [i|]; simpl; [|naive_solver].
  destruct (Address i) as [a|] eqn:Ha; simpl; [|naive_solver].
  destruct (Name i) as [n|] eqn:Hn; simpl; [|naive_solver].
  destruct (ManufacturerData i) as [[|[k payload] md]|] eqn:Hmd; simpl;
    [naive_solver|..];
    (destruct (UUIDs i) as [us|] eqn:Hus; simpl; [|naive_solver]).
  - split; [|by eauto]. intros _. exists i, a, n, us. by rewrite Hmd.
  - split; [|by eauto]. intros _. exists i, a, n, us. by rewrite Hmd.
Qed.

Lemma announced_device_Some obj :
  is_Some (announced_device obj) ↔ is_device_object obj ∧ constructible obj.
Proof.
  rewrite <-(init_returns [] obj). unfold announced_device, is_device_object.
  rewrite andb_True, !bool_decide_spec.
  destruct (decide (is_Some (ORG_BLUEZ_ADAPTER1 obj))) as [Hadp|Hadp].
  - split; [by intros [??]|]. intros [[Hnone _] _]. rewrite Hnone in Hadp.
    by destruct Hadp.
  - assert (ORG_BLUEZ_ADAPTER1 obj = None) as Hnone.
    { destruct (ORG_BLUEZ_ADAPTER1 obj); [destruct Hadp; eauto|done]. }
    destruct (decide (is_Some (ORG_BLUEZ_DEVICE1 obj))) as [Hdev|Hdev].
    + destruct (BlueZDevice.__init__ [] obj) as [d|e].
      * split; [|by eauto]. intros _. eauto.
      * split; [by intros [??]|]. by intros [_ [??]].
    + split; [by intros [??]|]. by intros [[_ ?] _].
Qed.

Lemma announced_device_obj obj d :
  announced_device obj = Some d →
  BlueZDevice.obj d = obj ∧ BlueZDevice.gatt_services d = [].
Proof.
  unfold announced_device. repeat case_decide; try done.
  destruct (BlueZDevice.__init__ [] obj) as [d'|] eqn:Hinit; [|done].
  intros [= <-]. revert Hinit. unfold BlueZDevice.__init__.
  destruct (ORG_BLUEZ_DEVICE1 obj) as [i|]; simpl; [|done].
  destruct (Address i); simpl; [|done]. destruct (Name i); simpl; [|done].
  destruct (match ManufacturerData i with
            | Some md => BlueZDevice.first_key md | None => Ok 0 end); simpl; [|done].
  destruct (UUIDs i); simpl; [|done]. by intros [= <-].
Qed.

(** X7: the constructor of a device returns exactly for an object that
    has the device interface with Address, Name and UUIDs cached and
    whose manufacturer data, when present, are not empty.  Otherwise it
    raises: [AssertionError] without the interface, [AttributeError]
    without Address or Name, [IndexError] on empty manufacturer data,
    [AssertionError] without UUIDs, in this order of precedence, and the
    same whatever other objects exist.  The device it returns has the
    path and properties of the object, the first vendor of the
    manufacturer data as vendor (0 without data), and is resolved against
    the objects that exist. *)
Theorem device_constructor_outcome (om om' : list DBusObject) (obj : DBusObject) :
  ((∃ d, BlueZDevice.__init__ om obj = Ok d) ↔ constructible obj)
  ∧ (∀ e, BlueZDevice.__init__ om obj = Raise e → BlueZDevice.__init__ om' obj = Raise e)
  ∧ (∀ d, BlueZDevice.__init__ om obj = Ok d →
       ∃ i, ORG_BLUEZ_DEVICE1 obj = Some i
            ∧ BlueZDevice.objpath d = get_object_path obj
            ∧ BlueZDevice.obj d = obj
            ∧ BlueZDevice.interface d = i
            ∧ Address i = Some (BlueZDevice.address d)
            ∧ Name i = Some (BlueZDevice.name d)
            ∧ UUIDs i = Some (BlueZDevice.uuids d)
            ∧ BlueZDevice.vendor_id d = advertised_vendor i
            ∧ BlueZDevice.characteristics d
              = list_to_map (candidates (get_object_path obj) om)
            ∧ BlueZDevice.gatt_services d = device_services (get_object_path obj) om)
  ∧ match ORG_BLUEZ_DEVICE1 obj with
    | None => BlueZDevice.__init__ om obj = Raise AssertionError
    | Some i =>
        (Address i = None ∨ Name i = None →
         BlueZDevice.__init__ om obj = Raise AttributeError)
        ∧ (is_Some (Address i) → is_Some (Name i) → ManufacturerData i = Some [] →
           BlueZDevice.__init__ om obj = Raise IndexError)
        ∧ (is_Some (Address i) → is_Some (Name i) → ManufacturerData i ≠ Some [] →
           UUIDs i = None →
           BlueZDevice.__init__ om obj = Raise AssertionError)
    end.
Proof.
  rewrite constructible_spec, (device_init_spec om), (device_init_spec om').
  unfold BlueZDevice.__init__, advertised_vendor.
  destruct (ORG_BLUEZ_DEVICE1 obj) as [i|]; simpl; [|naive_solver].
  destruct (Address i) as [a|] eqn:Ha; simpl; [|naive_solver].
  destruct (Name i) as [n|] eqn:Hn; simpl; [|naive_solver].
  destruct (ManufacturerData i) as [[|[k payload] md]|] eqn:Hmd; simpl;
    [naive_solver|..];
    (destruct (UUIDs i) as [us|] eqn:Hus; simpl; [|naive_solver]).
  - split; [naive_solver|]. split; [done|]. split; [|naive_solver].
    intros d [= <-]. exists i. split_and!; try done; [by rewrite Hmd|].
    unfold resolved. simpl. by rewrite (left_id_L ∅ (∪)).
  - split; [naive_solver|]. split; [done|]. split; [|naive_solver].
    intros d [= <-]. exists i. split_and!; try done; [by rewrite Hmd|].
    unfold resolved. simpl. by rewrite (left_id_L ∅ (∪)).
Qed.

End devices_more.

(** ** The device manager: enumeration, and what an announcement keeps *)

Section manager_more.

Implicit Types (self : BlueZDeviceManager.t) (d : BlueZDevice.t).
Implicit Types (objs om l : list DBusObject) (obj : DBusObject).

Lemma elem_of_enumerated om l d :
  d ∈ enumerated om l
  ↔ ∃ obj d0, obj ∈ l ∧ announced_device obj = Some d0 ∧ d = resolved d0 om.
Proof.
  unfold enumerated. rewrite list_elem_of_omap. split.
  - intros (obj & Hobj & Hd). destruct (announced_device obj) as [d0|] eqn:Hd0; [|done].
    injection Hd as <-. by exists obj, d0.
  - intros (obj & d0 & Hobj & Hd0 & ->). exists obj. by rewrite Hd0.
Qed.

Lemma enumerated_resolved om l d :
  d ∈ enumerated om l →
  BlueZDevice.objpath d ∈ get_object_path <$> l
  ∧ BlueZDevice.characteristics d = list_to_map (candidates (BlueZDevice.objpath d) om)
  ∧ BlueZDevice.gatt_services d = device_services (BlueZDevice.objpath d) om.
Proof.
  intros (obj & d0 & Hobj & Hd0 & ->)%elem_of_enumerated. split_and!.
  - simpl. rewrite (announced_device_path obj d0 Hd0). by apply list_elem_of_fmap_2.
  - unfold resolved. simpl.
    by rewrite (announced_device_characteristics obj d0 Hd0), (left_id_L ∅ (∪)).
  - done.
Qed.

(** One turn of the loop of [connect_to_bluez]. *)
Lemma enumerate_step self obj :
  ('(self', _) ← BlueZDeviceManager._process_object self obj; Ok self')
  = if is_device_object obj then
      match announced_device obj with
      | Some d0 =>
          let dev := resolved d0 (BlueZDeviceManager._om self) in
          Ok {| BlueZDeviceManager._om := BlueZDeviceManager._om self;
                BlueZDeviceManager.devices := BlueZDeviceManager.devices self ++ [dev];
                BlueZDeviceManager.emitted :=
                  BlueZDeviceManager.emitted self
                  ++ [BlueZDeviceManager.device_added dev] |}
      | None => BlueZDevice.__init__ [] obj ≫= λ _, Raise AssertionError
      end
    else Ok self.
Proof.
  unfold BlueZDeviceManager._process_object, BlueZDeviceManager._process_device,
    is_device_object, announced_device.
  destruct (decide (is_Some (ORG_BLUEZ_ADAPTER1 obj))) as [Hadp|Hadp].
  - rewrite bool_decide_eq_false_2; [done|]. intros Hnone. rewrite Hnone in Hadp.
    by destruct Hadp.
  - rewrite bool_decide_eq_true_2
      by (destruct (ORG_BLUEZ_ADAPTER1 obj); [destruct Hadp; eauto|done]).
    destruct (decide (is_Some (ORG_BLUEZ_DEVICE1 obj))) as [Hdev|Hdev].
    + rewrite bool_decide_eq_true_2 by done. simpl. rewrite device_init_spec.
      by destruct (BlueZDevice.__init__ [] obj).
    + rewrite bool_decide_eq_false_2 by done. simpl. by case_decide.
Qed.

Lemma enumerate_loop l : ∀ self,
  Forall (λ obj, is_device_object obj → constructible obj) l →
  for_each (λ self obj, '(self, _) ← BlueZDeviceManager._process_object self obj; Ok self)
           l self
  = Ok {| BlueZDeviceManager._om := BlueZDeviceManager._om self;
          BlueZDeviceManager.devices :=
            BlueZDeviceManager.devices self ++ enumerated (BlueZDeviceManager._om self) l;
          BlueZDeviceManager.emitted :=
            BlueZDeviceManager.emitted self
            ++ (BlueZDeviceManager.device_added
                  <$> enumerated (BlueZDeviceManager._om self) l) |}.
Proof.
  induction l as [|obj l IH]; intros self Hall.
  - simpl. rewrite !app_nil_r. by destruct self.
  - apply Forall_cons in Hall as [Hobj Hall].
    rewrite for_each_cons, enumerate_step. unfold enumerated. csimpl.
    destruct (is_device_object obj) eqn:Hdev.
    + destruct (proj2 (announced_device_Some obj)) as [d0 Hd0].
      { split; [by rewrite Hdev|by apply Hobj]. }
      rewrite Hd0. cbn zeta. rewrite bind_Ok, IH by done. csimpl.
      by rewrite <-!(assoc_L (++)).
    + destruct (announced_device obj) as [d0|] eqn:Hd0.
      { destruct (proj1 (announced_device_Some obj)) as [Hdev' _]; [by eauto|].
        by rewrite Hdev in Hdev'. }
      by rewrite bind_Ok, IH.
Qed.

Lemma enumerate_returns l : ∀ self self',
  for_each (λ self obj, '(self, _) ← BlueZDeviceManager._process_object self obj; Ok self)
           l self = Ok self' →
  Forall (λ obj, is_device_object obj → constructible obj) l.
Proof.
  induction l as [|obj l IH]; intros self self'; [by constructor|].
  rewrite for_each_cons, enumerate_step.
  destruct (is_device_object obj) eqn:Hdev.
  - destruct (announced_device obj) as [d0|] eqn:Hd0.
    + cbn zeta. rewrite bind_Ok. intros Hrest%IH. constructor; [|done]. intros _.
      by destruct (proj1 (announced_device_Some obj) (mk_is_Some _ _ Hd0)) as [_ ?].
    + by destruct (BlueZDevice.__init__ [] obj).
  - rewrite bind_Ok. intros Hrest%IH. constructor; [|done]. by rewrite Hdev.
Qed.

(** X8: [connect_to_bluez] returns exactly when the constructor returns
    for every object that it processes as a device.  It then holds one
    device for each of these objects, after the devices it had and in the
    order of the objects, and has emitted one device-added signal for
    each, in the same order.  Each of these devices is resolved against
    the whole set of objects, wherever its services and characteristics
    stand in the enumeration: it has the first characteristic found for
    each UUID, and all its services. *)
Theorem connect_to_bluez_enumerates (self : BlueZDeviceManager.t) (objs : list DBusObject) :
  ((∃ self', BlueZDeviceManager.connect_to_bluez self objs = Ok self')
   ↔ Forall (λ obj, is_device_object obj → constructible obj) objs)
  ∧ (∀ self',
       BlueZDeviceManager.connect_to_bluez self objs = Ok self' →
       BlueZDeviceManager._om self' = objs
       ∧ BlueZDeviceManager.devices self'
         = BlueZDeviceManager.devices self ++ enumerated objs objs
       ∧ BlueZDeviceManager.emitted self'
         = BlueZDeviceManager.emitted self
           ++ (BlueZDeviceManager.device_added <$> enumerated objs objs))
  ∧ BlueZDevice.obj <$> enumerated objs objs
    = filter (λ obj, is_device_object obj && constructible obj) objs
  ∧ ∀ d, d ∈ enumerated objs objs →
      BlueZDevice.characteristics d = list_to_map (candidates (BlueZDevice.objpath d) objs)
      ∧ BlueZDevice.gatt_services d = device_services (BlueZDevice.objpath d) objs.
Proof.
  unfold BlueZDeviceManager.connect_to_bluez. cbn zeta. split_and!.
  - split.
    + intros [self' Hok]. by apply enumerate_returns in Hok.
    + intros Hall. rewrite enumerate_loop by done. eauto.
  - intros self' Hok. pose proof (enumerate_returns _ _ _ Hok) as Hall.
    rewrite enumerate_loop in Hok by done. by injection Hok as <-.
  - generalize objs at 1 as om. intros om. unfold enumerated.
    induction objs as [|obj l IH]; [done|]. csimpl. rewrite filter_cons.
    pose proof (announced_device_Some obj) as Hsome. rewrite <-andb_True in Hsome.
    destruct (announced_device obj) as [d0|] eqn:Hd0; csimpl.
    + rewrite decide_True by (apply Hsome; eauto).
      rewrite IH. by destruct (announced_device_obj obj d0 Hd0) as [-> _].
    + rewrite decide_False; [done|]. intros [? [=]]%Hsome.
  - intros d Hd. by destruct (enumerated_resolved objs objs d Hd) as (_ & ? & ?).
Qed.

Lemma candidates_map_perm objs1 objs2 p :
  objs1 ≡ₚ objs2 → uuids_distinct objs1 → p ∈ get_object_path <$> objs1 →
  (list_to_map (candidates p objs1) : gmap string BlueZCharacteristic.t)
  = list_to_map (candidates p objs2).
Proof.
  intros Hperm Hdistinct Hp.
  assert (Hp2 : p ∈ get_object_path <$> objs2) by by rewrite <-Hperm.
  apply map_eq. intros u. apply option_eq. intros c. split.
  - intros Hin%elem_of_list_to_map_2.
    assert (Hin2 : (u, c) ∈ candidates p objs2).
    { eapply candidates_mono; [|done]. intros x. by rewrite Hperm. }
    apply elem_of_list_to_map_1'; [|done].
    intros c' Hc'. by apply (uuids_distinct_at objs1 objs2 p u c c').
  - intros Hin%elem_of_list_to_map_2.
    assert (Hin1 : (u, c) ∈ candidates p objs1).
    { eapply candidates_mono; [|done]. intros x. by rewrite Hperm. }
    apply elem_of_list_to_map_1'; [|done].
    intros c' Hc'. by apply (uuids_distinct_at objs1 objs1 p u c c').
Qed.

(** X9: when the characteristics found under any one device have
    distinct UUIDs, the enumeration of [connect_to_bluez] ends with the
    same mapping from device path to characteristics whatever the order in
    which the object manager lists the objects, a characteristic listed
    before its service included; and if it returns for one order it
    returns for every order. *)
Theorem enumeration_order_independent
    (objs1 objs2 : list DBusObject) (manager1 : BlueZDeviceManager.t) :
  objs1 ≡ₚ objs2 →
  uuids_distinct objs1 →
  BlueZDeviceManager.connect_to_bluez BlueZDeviceManager.__init__ objs1 = Ok manager1 →
  ∃ manager2,
    BlueZDeviceManager.connect_to_bluez BlueZDeviceManager.__init__ objs2 = Ok manager2
    ∧ mapping manager1 = mapping manager2.
Proof.
  unfold BlueZDeviceManager.connect_to_bluez. cbn zeta. intros Hperm Hdistinct Hok.
  pose proof (enumerate_returns _ _ _ Hok) as Hall.
  rewrite enumerate_loop in Hok by done. injection Hok as <-.
  rewrite enumerate_loop by by rewrite <-Hperm. eexists. split; [done|].
  unfold mapping. simpl.
  assert (Hlookup : ∀ objs p m,
    (list_to_map ((λ d, (BlueZDevice.objpath d, BlueZDevice.characteristics d))
                    <$> enumerated objs objs)
       : gmap string (gmap string BlueZCharacteristic.t)) !! p = Some m
    ↔ (∃ obj, obj ∈ objs ∧ is_Some (announced_device obj) ∧ get_object_path obj = p)
      ∧ m = list_to_map (candidates p objs)).
  { intros objs p m. split.
    - intros (d & [= -> ->] & Hd)%elem_of_list_to_map_2%list_elem_of_fmap.
      destruct (enumerated_resolved objs objs d Hd) as (_ & Hchars & _).
      apply elem_of_enumerated in Hd as (obj & d0 & Hobj & Hd0 & ->).
      split; [|done]. exists obj. split_and!; [done|by eauto|].
      by rewrite <-(announced_device_path obj d0 Hd0).
    - intros [(obj & Hobj & [d0 Hd0] & <-) ->].
      apply elem_of_list_to_map_1'.
      + intros m' (d & [= Hpath ->] & Hd)%list_elem_of_fmap.
        destruct (enumerated_resolved objs objs d Hd) as (_ & -> & _).
        by rewrite Hpath.
      + apply list_elem_of_fmap. exists (resolved d0 objs). split.
        * simpl. rewrite (announced_device_path obj d0 Hd0). f_equal.
          by rewrite (announced_device_characteristics obj d0 Hd0), (left_id_L ∅ (∪)).
        * apply elem_of_enumerated. by exists obj, d0. }
  apply map_eq. intros p. apply option_eq. intros m. rewrite !Hlookup. split.
  - intros [(obj & Hobj & Hsome & Hp) ->]. split.
    + exists obj. by rewrite <-Hperm.
    + apply candidates_map_perm; [done..|]. rewrite <-Hp. by apply list_elem_of_fmap_2.
  - intros [(obj & Hobj & Hsome & Hp) ->]. rewrite <-Hperm in Hobj. split.
    + by exists obj.
    + symmetry. apply candidates_map_perm; [done..|]. rewrite <-Hp.
      by apply list_elem_of_fmap_2.
Qed.

Lemma object_added_emitted self obj :
  BlueZDeviceManager.emitted (BlueZDeviceManager.object_added self obj)
  = BlueZDeviceManager.emitted self
    ++ match announced_device obj with
       | Some d0 =>
           [BlueZDeviceManager.device_added
              (resolved d0 (BlueZDeviceManager._om self ++ [obj]))]
       | None => []
       end.
Proof.
  unfold BlueZDeviceManager.object_added, BlueZDeviceManager._on_om_object_added,
    BlueZDeviceManager._process_object, BlueZDeviceManager._process_device,
    announced_device.
  cbn zeta. repeat case_decide; simpl; try (by rewrite app_nil_r).
  - rewrite device_init_spec.
    destruct (BlueZDevice.__init__ [] obj); simpl; [done|by rewrite app_nil_r].
  - rewrite resolve_all. simpl. by rewrite app_nil_r.
Qed.

Lemma grown_refl d : grown d d.
Proof. by unfold grown. Qed.

Lemma grown_trans d1 d2 d3 : grown d1 d2 → grown d2 d3 → grown d1 d3.
Proof.
  unfold grown. intros (? & ? & ? & ? & ? & ? & ? & ?) (? & ? & ? & ? & ? & ? & ? & ?).
  split_and!; try congruence. by etrans.
Qed.

Lemma grown_resolved d om : grown d (resolved d om).
Proof. unfold grown. split_and!; try done. apply map_union_subseteq_l. Qed.

Lemma Forall2_grown_trans (l1 l2 l3 : list BlueZDevice.t) :
  Forall2 grown l1 l2 → Forall2 grown l2 l3 → Forall2 grown l1 l3.
Proof.
  intros H12. revert l3. induction H12 as [|d1 d2 l1 l2 Hd H12 IH]; intros l3 H23.
  - by inv H23.
  - inv H23. constructor; [by eapply grown_trans|by apply IH].
Qed.

(** What an announcement leaves of the devices: each stays, possibly
    grown, and at most one comes after them. *)
Lemma object_added_grows self obj :
  ∃ kept new,
    BlueZDeviceManager.devices (BlueZDeviceManager.object_added self obj) = kept ++ new
    ∧ Forall2 grown (BlueZDeviceManager.devices self) kept
    ∧ BlueZDeviceManager.emitted (BlueZDeviceManager.object_added self obj)
      = BlueZDeviceManager.emitted self ++ (BlueZDeviceManager.device_added <$> new)
    ∧ new = match announced_device obj with
            | Some d0 => [resolved d0 (BlueZDeviceManager._om self ++ [obj])]
            | None => []
            end.
Proof.
  rewrite object_added_devices', object_added_emitted. cbn zeta.
  destruct (announced_device obj) as [d0|] eqn:Hd0.
  - eexists _, _. split_and!; [done| |done|done].
    apply Forall_Forall2_diag, Forall_forall. intros. apply grown_refl.
  - destruct (plain_characteristic obj && _).
    + eexists _, []. rewrite app_nil_r. split_and!; [done| |done|done].
      apply Forall2_fmap_r, Forall_Forall2_diag, Forall_forall. intros d _.
      apply grown_resolved.
    + eexists _, []. rewrite app_nil_r. split_and!; [done| |done|done].
      apply Forall_Forall2_diag, Forall_forall. intros. apply grown_refl.
Qed.

(** X10: the announcement of an object never removes or reorders a
    device of the manager and never takes a characteristic from one: the
    devices it had are still there, in the same order and at the head of
    the list, each with the same path, object, address, name and vendor
    and with every characteristic it had.  At most one device comes after
    them, built from the object announced and resolved against all objects
    announced so far, with one device-added signal for it; no other signal
    is emitted. *)
Theorem object_added_keeps (self : BlueZDeviceManager.t) (obj : DBusObject) :
  ∃ kept new,
    BlueZDeviceManager.devices (BlueZDeviceManager.object_added self obj) = kept ++ new
    ∧ Forall2 grown (BlueZDeviceManager.devices self) kept
    ∧ (length new ≤ 1)%nat
    ∧ Forall (λ d, BlueZDevice.obj d = obj
                   ∧ BlueZDevice.characteristics d
                     = list_to_map (candidates (get_object_path obj)
                                      (BlueZDeviceManager._om self ++ [obj])))
             new
    ∧ BlueZDeviceManager.emitted (BlueZDeviceManager.object_added self obj)
      = BlueZDeviceManager.emitted self ++ (BlueZDeviceManager.device_added <$> new)
    ∧ BlueZDeviceManager._om (BlueZDeviceManager.object_added self obj)
      = BlueZDeviceManager._om self ++ [obj].
Proof.
  destruct (object_added_grows self obj) as (kept & new & Hdevices & Hkept & Hemitted & Hnew).
  exists kept, new. split_and!; try done.
  - subst new. destruct (announced_device obj); simpl; lia.
  - subst new. destruct (announced_device obj) as [d0|] eqn:Hd0; constructor; [|done].
    destruct (announced_device_obj obj d0 Hd0) as [Hobj _]. split; [done|].
    unfold resolved. simpl.
    by rewrite (announced_device_characteristics obj d0 Hd0), (left_id_L ∅ (∪)),
      (announced_device_path obj d0 Hd0).
  - apply object_added_om.
Qed.

(** X11: after any sequence of announcements the manager holds one
    device for each object announced that it processes as a device and for
    which the constructor returns, in the order of arrival, two objects
    with the same address giving two devices; and it has emitted one
    device-added signal per device, in the same order, each with the
    device as it then was: same path, object and address, and no
    characteristic that the device does not have now. *)
Theorem deliver_devices (objs : list DBusObject) :
  BlueZDevice.obj <$> BlueZDeviceManager.devices (BlueZDeviceManager.deliver objs)
  = filter (λ obj, is_device_object obj && constructible obj) objs
  ∧ Forall2 grown
      (signalled <$> BlueZDeviceManager.emitted (BlueZDeviceManager.deliver objs))
      (BlueZDeviceManager.devices (BlueZDeviceManager.deliver objs)).
Proof.
  induction objs as [|obj objs [IHobj IHsig]] using rev_ind.
  { split; [done|constructor]. }
  rewrite deliver_snoc.
  destruct (object_added_grows (BlueZDeviceManager.deliver objs) obj)
    as (kept & new & -> & Hkept & -> & Hnew).
  split.
  - rewrite fmap_app, filter_app, <-IHobj. f_equal.
    + clear -Hkept. induction Hkept as [|d d' l l' Hd _ IH]; [done|].
      csimpl. rewrite IH. by destruct Hd as (_ & -> & _).
    + subst new. rewrite filter_cons, filter_nil.
      pose proof (announced_device_Some obj) as Hsome. rewrite <-andb_True in Hsome.
      destruct (announced_device obj) as [d0|] eqn:Hd0; simpl.
      * rewrite decide_True by (apply Hsome; eauto).
        by destruct (announced_device_obj obj d0 Hd0) as [-> _].
      * rewrite decide_False; [done|]. by intros [? [=]]%Hsome.
  - rewrite fmap_app. apply Forall2_app.
    + by apply (Forall2_grown_trans _ (BlueZDeviceManager.devices
                                         (BlueZDeviceManager.deliver objs))).
    + rewrite <-list_fmap_compose. apply Forall2_fmap_l, Forall_Forall2_diag, Forall_forall.
      intros d _. apply grown_refl.
Qed.

End manager_more.

(** Device, service and characteristic listed in two orders, in one of
    them the characteristic before its service. *)
Lemma enumeration_order_independent_witness :
  ∃ manager1 manager2,
    BlueZDeviceManager.connect_to_bluez BlueZDeviceManager.__init__ [dev_obj; chr_a; svc1]
    = Ok manager1
    ∧ BlueZDeviceManager.connect_to_bluez BlueZDeviceManager.__init__
        [dev_obj; svc1; chr_a]
      = Ok manager2
    ∧ mapping manager1 = mapping manager2.
Proof.
  eexists. 
  destruct (enumeration_order_independent [dev_obj; chr_a; svc1] [dev_obj; svc1; chr_a]
              _ (perm_skip _ (perm_swap _ _ _))
              ltac:(unfold uuids_distinct; repeat constructor;
                    by apply (bool_decide_unpack _))
              eq_refl) as (manager2 & Hok & Hmap).
  exists manager2. split; [reflexivity|]. split; [exact Hok|exact Hmap].
Defined.

(** ** Sessions: pairing requests and device updates *)

Section orchestrator_more.

Context (W : WacomDriver).

Implicit Types (self : Tuhi.t W) (session : TuhiDevice.t W).
Implicit Types (bluez_device : BlueZDevice.t).

(** X12: a pairing request sets the pairing flag and asks the transport
    to connect, with no call to the driver, when the device is not
    connected; the connected signal that follows, if the driver is idle,
    then starts pairing, not retrieval, and clears the flag.  When the
    device is connected already, the request is served at once: pairing
    starts and the flag is cleared if the driver is idle; if the driver is
    working nothing is called and the flag stays set, also across further
    connected signals that find the driver working. *)
Theorem pairing_request_served (session : TuhiDevice.t W) :
  let requested := TuhiDevice._on_pairing W session in
  let driver := TuhiDevice._wacom_device W session in
  TuhiDevice._bluez_device W requested = TuhiDevice._bluez_device W session
  ∧ TuhiDevice._tuhi_dbus_device W requested = TuhiDevice._tuhi_dbus_device W session
  ∧ if Connected (BlueZDevice.interface (TuhiDevice._bluez_device W session)) then
      if working W driver then
        requested = TuhiDevice.set_pairing W session true
        ∧ TuhiDevice._on_bluez_device_connected W requested = requested
      else
        TuhiDevice.calls W requested
          = TuhiDevice.calls W session ++ [TuhiDevice.wacom_start_pairing]
        ∧ TuhiDevice._wacom_device W requested = start_pairing W driver
        ∧ TuhiDevice.pairing W requested = false
    else
      TuhiDevice.calls W requested = TuhiDevice.calls W session ++ [TuhiDevice.bluez_Connect]
      ∧ TuhiDevice._wacom_device W requested = driver
      ∧ TuhiDevice.pairing W requested = true
      ∧ let connected := TuhiDevice._on_bluez_device_connected W requested in
        if working W driver then connected = requested
        else
          TuhiDevice.calls W connected
            = TuhiDevice.calls W session
              ++ [TuhiDevice.bluez_Connect; TuhiDevice.wacom_start_pairing]
          ∧ TuhiDevice._wacom_device W connected = start_pairing W driver
          ∧ TuhiDevice.pairing W connected = false.
Proof.
  unfold TuhiDevice._on_pairing, TuhiDevice.connect_device, BlueZDevice.connect_device,
    TuhiDevice._on_bluez_device_connected.
  cbn zeta. simpl.
  destruct (Connected _); simpl;
    destruct (working W (TuhiDevice._wacom_device W session)) eqn:Hw; simpl;
    rewrite ?Hw; simpl; split_and!; try done.
  by rewrite <-(assoc_L (++)).
Qed.

Lemma updated_devices self bluez_device :
  BlueZDevice.vendor_id bluez_device = WACOM_COMPANY_ID →
  let got := Tuhi.get_tuhi_device W self bluez_device in
  let asked := TuhiDevice.pairingmode W got.2 in
  Tuhi._on_bluez_device_updated W self bluez_device
  = {| Tuhi.server := Tuhi.server W got.1;
       Tuhi.devices :=
         <[BlueZDevice.address bluez_device :=
             if asked.2 then asked.1 else TuhiDevice.retrieve_data W asked.1]>
           (Tuhi.devices W got.1) |}.
Proof.
  intros Hvendor got asked. subst asked got. unfold Tuhi._on_bluez_device_updated.
  rewrite decide_False by (by intros ?).
  destruct (Tuhi.get_tuhi_device W self bluez_device) as [self1 session]. cbn [fst snd].
  destruct (TuhiDevice.pairingmode W session) as [session1 answer]. cbn [fst snd].
  by destruct answer.
Qed.

Lemma get_tuhi_device_stored self bluez_device :
  Tuhi.devices W (Tuhi.get_tuhi_device W self bluez_device).1
    !! BlueZDevice.address bluez_device
  = Some (Tuhi.get_tuhi_device W self bluez_device).2
  ∧ (∀ a, a ≠ BlueZDevice.address bluez_device →
       Tuhi.devices W (Tuhi.get_tuhi_device W self bluez_device).1 !! a
       = Tuhi.devices W self !! a)
  ∧ TuhiDBusServer.created (Tuhi.server W (Tuhi.get_tuhi_device W self bluez_device).1)
    = TuhiDBusServer.created (Tuhi.server W self)
      ++ match Tuhi.devices W self !! BlueZDevice.address bluez_device with
         | Some _ => []
         | None => [bluez_device]
         end.
Proof.
  unfold Tuhi.get_tuhi_device.
  destruct (Tuhi.devices W self !! BlueZDevice.address bluez_device) as [d|] eqn:Hd; simpl.
  - by rewrite app_nil_r.
  - split_and!; [by rewrite lookup_insert_eq| |done].
    intros a Ha. by rewrite lookup_insert_ne.
Qed.

(** X13: the update of a device with the Wacom vendor identifier touches
    the session of its address only, creating it, with one call of
    [create_device], when there was none; every other session and the
    one-session-per-address invariant are kept.  The session stores the
    answer of its pairing-mode query in its D-Bus device.  In pairing mode
    nothing else happens to it: no connection is asked and the driver is
    not called.  Otherwise the data retrieval of that session is run, on
    the transport device that the session was created with. *)
Theorem update_of_wacom_device (self : Tuhi.t W) (bluez_device : BlueZDevice.t) :
  BlueZDevice.vendor_id bluez_device = WACOM_COMPANY_ID →
  let self' := Tuhi._on_bluez_device_updated W self bluez_device in
  let session := (Tuhi.get_tuhi_device W self bluez_device).2 in
  let answer := (TuhiDevice.pairingmode W session).2 in
  (∀ a, a ≠ BlueZDevice.address bluez_device →
     Tuhi.devices W self' !! a = Tuhi.devices W self !! a)
  ∧ TuhiDBusServer.created (Tuhi.server W self')
    = TuhiDBusServer.created (Tuhi.server W self)
      ++ match Tuhi.devices W self !! BlueZDevice.address bluez_device with
         | Some _ => []
         | None => [bluez_device]
         end
  ∧ (one_session_each W self → one_session_each W self')
  ∧ ∃ session',
      Tuhi.devices W self' !! BlueZDevice.address bluez_device = Some session'
      ∧ TuhiDBusDevice.pairingmode (TuhiDevice._tuhi_dbus_device W session') = Some answer
      ∧ TuhiDevice._bluez_device W session' = TuhiDevice._bluez_device W session
      ∧ if answer then
          TuhiDevice.calls W session' = TuhiDevice.calls W session
          ∧ TuhiDevice._wacom_device W session' = TuhiDevice._wacom_device W session
          ∧ TuhiDevice.pairing W session' = TuhiDevice.pairing W session
        else
          session' = TuhiDevice.retrieve_data W (TuhiDevice.pairingmode W session).1.
Proof.
  intros Hvendor. cbn zeta. rewrite (updated_devices self bluez_device Hvendor). cbn zeta.
  destruct (get_tuhi_device_stored self bluez_device) as (Hstored & Hothers & Hcreated).
  simpl. split_and!.
  - intros a Ha. rewrite lookup_insert_ne by done. by apply Hothers.
  - done.
  - intros Hinv.
    destruct (get_tuhi_device_invariant W self bluez_device Hinv) as ([Hnodup Hdom] & _ & _).
    split; simpl; [done|]. rewrite dom_insert_L, <-Hdom.
    apply elem_of_dom_2 in Hstored. set_solver.
  - eexists. split; [by rewrite lookup_insert_eq|].
    generalize (Tuhi.get_tuhi_device W self bluez_device).2 as session. intros session.
    destruct (bool_decide _) eqn:Hanswer; [done|].
    unfold TuhiDevice.retrieve_data, TuhiDevice.connect_device,
      TuhiDevice._on_bluez_device_connected. simpl.
    destruct (BlueZDevice.connect_device _); [|done].
    destruct (working W _); [done|]. simpl. by destruct (TuhiDevice.pairing W _).
Qed.

End orchestrator_more.

(** A Wacom device in normal mode, updated for the first time. *)
Lemma update_of_wacom_device_witness :
  TuhiDBusServer.created
    (Tuhi.server example_driver
       (Tuhi._on_bluez_device_updated example_driver (Tuhi.__init__ example_driver)
          (advertising [1; 2])))
  = [advertising [1; 2]]
  ∧ TuhiDevice.calls example_driver
      <$> Tuhi.devices example_driver
            (Tuhi._on_bluez_device_updated example_driver (Tuhi.__init__ example_driver)
               (advertising [1; 2])) !! "E2:43:03:67:0E:01"%string
    = Some [TuhiDevice.bluez_Connect].
Proof.
  destruct (update_of_wacom_device example_driver (Tuhi.__init__ example_driver)
              (advertising [1; 2]) eq_refl) as (_ & Hcreated & _ & session' & Hs & _ & _ & Hrun).
  split; [exact Hcreated|]. vm_compute. reflexivity.
Defined.

(** A device with a characteristic under "u1", asked for "u1". *)
Lemma connect_gatt_value_subscribes_witness :
  ∃ chrc',
    BlueZDevice.connect_gatt_value
      (resolved example_device [dev_obj; svc1; chr_a]) "u1" 7%nat
    = Ok (BlueZDevice.set_characteristics (resolved example_device [dev_obj; svc1; chr_a])
            (<["u1"%string := chrc']>
               (BlueZDevice.characteristics
                  (resolved example_device [dev_obj; svc1; chr_a]))))
    ∧ BlueZCharacteristic.StartNotify_calls chrc' = 1%nat
    ∧ ∀ value : list Z,
        BlueZCharacteristic._on_properties_changed chrc' [("Value"%string, value)]
        = [(7%nat, "Value"%string, value)].
Proof.
  destruct (connect_gatt_value_subscribes
              (resolved example_device [dev_obj; svc1; chr_a]) "u1" 7%nat chrc_a)
    as (chrc' & Hcall & _ & _ & Hnotify & _ & _ & Hvalue).
  - vm_compute. reflexivity.
  - exists chrc'. split_and!; [exact Hcall|exact Hnotify|exact Hvalue].
Defined.
